(** * Dome1.py: template matching with retry, and the click it drives

    A shallow embedding of the core of [Dome1.py] ([capture_screen],
    [find_template], [find_button], [click_position], [auto_click]) and the
    properties of it that the design document states.

    The script talks to three outside parties: the display
    ([pyautogui.screenshot]), the file system and image codec
    ([cv2.imread]) and the pointer ([pyautogui.moveTo], [pyautogui.click]);
    it sleeps and it logs.  The embedding is a state-and-exception monad
    over a [state] that holds the files, the number of calls made to each
    outside party and the trace of those calls; what the outside answers is
    an [env]. *)

From Stdlib Require Import ZArith QArith List String Bool Lia.
From Stdlib Require Import DecimalString.
Import ListNotations.

Set Implicit Arguments.

(** ** Exceptions *)

(** The exceptions that can reach the script.  [ImageNotFoundError] is the
    script's own class; the others come from the libraries and the
    interpreter. *)
Inductive exn : Type :=
| ImageNotFoundError (path : string)
| cv2_error
| OSError
| FailSafeException
| ValueError
| OverflowError
| KeyboardInterrupt
| SystemExit.

(** [except Exception] catches every class that derives from [Exception];
    [KeyboardInterrupt] and [SystemExit] derive from [BaseException] only. *)
Definition is_Exception (e : exn) : bool :=
  match e with
  | KeyboardInterrupt | SystemExit => false
  | _ => true
  end.

Inductive outcome (A : Type) : Type :=
| Ret (a : A)
| Raise (e : exn).
Arguments Ret {A} a.
Arguments Raise {A} e.

(** ** Arrays *)

(** A numpy array of uint8 samples as the script meets them: two dimensional
    ([depth = None], shape [(height, width)]) or three dimensional
    ([depth = Some c], shape [(height, width, c)]). *)
Record ndarray : Type := mk_ndarray {
  height : nat;
  width : nat;
  depth : option nat;
  sample : nat -> nat -> nat -> Z
}.

(** A single channel image, the result of [IMREAD_GRAYSCALE] and of
    [COLOR_BGR2GRAY]. *)
Record gray : Type := mk_gray {
  rows : nat;
  cols : nat;
  px : nat -> nat -> Z
}.

Definition gray_empty (g : gray) : bool :=
  (rows g =? 0)%nat || (cols g =? 0)%nat.

(** The array [cv2.matchTemplate] returns: one score for each offset. *)
Record scores : Type := mk_scores {
  r_rows : nat;
  r_cols : nat;
  r_at : nat -> nat -> Q
}.

(** A screen coordinate [(x, y)]. *)
Definition point : Type := (Z * Z)%type.

(** ** Trace and state *)

Inductive level : Type := DEBUG | INFO | WARNING | ERROR.

(** The log records the script writes, by the place that writes them. *)
Inductive message : Type :=
| CaptureFailed (e : exn)
| BelowThreshold (max_val threshold : Q) (path : string)
| TemplateMatchException (e : exn)
| Matched (path : string) (attempt : Z)
| NotMatched (path : string) (attempt : Z)
| FindButtonException (e : exn)
| AttemptsExceeded (path : string)
| Clicked (x y : Z)
| ClickFailed (e : exn).

(** Calls to the outside, in the order they are made. *)
Inductive event : Type :=
| Screenshot
| Imread (path : string)
| Sleep (secs : Q)
| MoveTo (x y : Z) (duration : Q)
| Click
| Log (lvl : level) (msg : message).

(** [files]: what the codec decodes at each path, [None] where there is no
    file or it is not an image.  [shots], [reads], [moves], [clicks]: calls
    made so far to [pyautogui.screenshot], [cv2.imread], [pyautogui.moveTo]
    and [pyautogui.click]. *)
Record state : Type := mk_state {
  files : string -> option gray;
  shots : nat;
  reads : nat;
  moves : nat;
  clicks : nat;
  trace : list event
}.

(** What the outside answers.  [display n] is the [n]-th screenshot, as the
    array [np.array] makes of it (RGB order), or the exception the grab
    raises; [move_fault n] and [click_fault n] are the exception of the
    [n]-th [moveTo] and [click], if any.  [luma] and [ccoeff_normed] are the
    two numeric kernels of OpenCV the script relies on: the grey value of a
    (blue, green, red) sample, and the normalised correlation coefficient
    of a template with the window of an image at offset [(x, y)].
    [long_sleep secs] is the exception with which the platform refuses a
    sleep of a length between [sleep_sure] and [sleep_overflow], if it
    does. *)
Record env : Type := mk_env {
  display : nat -> outcome ndarray;
  move_fault : nat -> option exn;
  click_fault : nat -> option exn;
  luma : Z -> Z -> Z -> Z;
  ccoeff_normed : gray -> gray -> nat -> nat -> Q;
  long_sleep : Q -> option exn
}.

(** ** The monad *)

Definition M (A : Type) : Type := state -> outcome A * state.

Definition ret {A} (a : A) : M A := fun st => (Ret a, st).

Definition raise {A} (e : exn) : M A := fun st => (Raise e, st).

Definition bind {A B} (m : M A) (k : A -> M B) : M B :=
  fun st =>
    match m st with
    | (Ret a, st') => k a st'
    | (Raise e, st') => (Raise e, st')
    end.

Notation "x <- m ;; k" := (bind m (fun x => k))
  (at level 61, m at next level, right associativity).
Notation "m ;;; k" := (bind m (fun _ => k))
  (at level 61, right associativity).

(** [try: body except Exception as e: handler e]. *)
Definition try_except {A} (body : M A) (handler : exn -> M A) : M A :=
  fun st =>
    match body st with
    | (Ret a, st') => (Ret a, st')
    | (Raise e, st') =>
        if is_Exception e then handler e st' else (Raise e, st')
    end.

(** A library call that touches nothing of the state. *)
Definition lift {A} (o : outcome A) : M A := fun st => (o, st).

(** [for x in xs: body x]. *)
Fixpoint for_each {A} (xs : list A) (body : A -> M unit) : M unit :=
  match xs with
  | [] => ret tt
  | x :: xs' => body x ;;; for_each xs' body
  end.

(** [range(lo, hi)] and [range(n)]. *)
Definition range (lo hi : Z) : list Z :=
  map (fun i => (lo + Z.of_nat i)%Z) (seq 0 (Z.to_nat (hi - lo))).

Definition range0 (n : Z) : list Z := range 0 n.

Definition emit (ev : event) : M unit :=
  fun st => (Ret tt,
             mk_state (files st) (shots st) (reads st) (moves st) (clicks st)
                      (trace st ++ [ev])).

(** ** The libraries *)

(** [logging.basicConfig(level=logging.INFO)]: the root logger drops
    [DEBUG] records. *)
Definition level_enabled (lvl : level) : bool :=
  match lvl with
  | DEBUG => false
  | _ => true
  end.

Definition logging (lvl : level) (msg : message) : M unit :=
  if level_enabled lvl then emit (Log lvl msg) else ret tt.

Definition Qltb (x y : Q) : bool :=
  (Qnum x * QDen y <? Qnum y * QDen x)%Z.

(** The lengths, in seconds, that every [time.sleep] takes and that none
    takes: 2^32 - 1 milliseconds, whole seconds of it, is the least limit
    among the implementations of CPython; beyond 2^63 nanoseconds the
    length does not fit its clock. *)
Definition sleep_sure : Q := 4294967.
Definition sleep_overflow : Q := 9223372037.

(** The exception [time.sleep(secs)] raises, if any: [ValueError] on a
    negative length, [OverflowError] on one beyond [sleep_overflow]; a
    length up to [sleep_sure] is slept, and between the two the platform
    decides. *)
Definition time_sleep_fault (E : env) (secs : Q) : option exn :=
  if Qltb secs 0 then Some ValueError
  else if Qltb sleep_overflow secs then Some OverflowError
  else if Qltb sleep_sure secs then long_sleep E secs
  else None.

(** [time.sleep(secs)]. *)
Definition time_sleep (E : env) (secs : Q) : M unit :=
  match time_sleep_fault E secs with
  | Some e => raise e
  | None => emit (Sleep secs)
  end.

Section Libraries.

Variable E : env.

(** [np.array(pyautogui.screenshot())]. *)
Definition pyautogui_screenshot : M ndarray :=
  fun st =>
    (display E (shots st),
     mk_state (files st) (S (shots st)) (reads st) (moves st) (clicks st)
              (trace st ++ [Screenshot])).

Definition pyautogui_moveTo (x y : Z) (duration : Q) : M unit :=
  fun st =>
    (match move_fault E (moves st) with
     | Some e => Raise e
     | None => Ret tt
     end,
     mk_state (files st) (shots st) (reads st) (S (moves st)) (clicks st)
              (trace st ++ [MoveTo x y duration])).

Definition pyautogui_click : M unit :=
  fun st =>
    (match click_fault E (clicks st) with
     | Some e => Raise e
     | None => Ret tt
     end,
     mk_state (files st) (shots st) (reads st) (moves st) (S (clicks st))
              (trace st ++ [Click])).

Definition color_input (src : ndarray) : bool :=
  match depth src with
  | Some c => ((c =? 3) || (c =? 4))%nat
              && negb ((height src =? 0) || (width src =? 0))%nat
  | None => false
  end.

(** [cv2.cvtColor(src, cv2.COLOR_RGB2BGR)]: the first and third channel
    change places; a source that is empty or has neither three nor four
    channels is refused. *)
Definition cvtColor_RGB2BGR (src : ndarray) : outcome ndarray :=
  if color_input src then
    Ret (mk_ndarray (height src) (width src) (Some 3%nat)
           (fun y x c => sample src y x (2 - c)%nat))
  else Raise cv2_error.

(** [cv2.cvtColor(src, cv2.COLOR_BGR2GRAY)]. *)
Definition cvtColor_BGR2GRAY (src : ndarray) : outcome gray :=
  if color_input src then
    Ret (mk_gray (height src) (width src)
           (fun y x => luma E (sample src y x 0%nat) (sample src y x 1%nat)
                         (sample src y x 2%nat)))
  else Raise cv2_error.

(** [cv2.imread(path, cv2.IMREAD_GRAYSCALE)]: [None] where nothing can be
    decoded, which includes an image without pixels. *)
Definition cv2_imread (path : string) : M (option gray) :=
  fun st =>
    (Ret (match files st path with
          | Some g => if gray_empty g then None else Some g
          | None => None
          end),
     mk_state (files st) (shots st) (S (reads st)) (moves st) (clicks st)
              (trace st ++ [Imread path])).

(** [cv2.matchTemplate(image, templ, cv2.TM_CCOEFF_NORMED)].  OpenCV
    compares the sizes first:
<<
    bool needswap = _img.size().height < _templ.size().height
                 || _img.size().width < _templ.size().width;
    if (needswap)
        CV_Assert(_img.size().height <= _templ.size().height
               && _img.size().width <= _templ.size().width);
>>
    and, when [needswap], exchanges image and template.  So a template
    that exceeds the image in one direction and is smaller in the other
    fails the assertion, and one that is at least as large in both is
    searched for the image.  The result has one score per offset of the
    smaller array inside the larger. *)
Definition needswap (image templ : gray) : bool :=
  (rows image <? rows templ)%nat || (cols image <? cols templ)%nat.

Definition swap_allowed (image templ : gray) : bool :=
  (rows image <=? rows templ)%nat && (cols image <=? cols templ)%nat.

Definition matchTemplate (image templ : gray) : outcome scores :=
  if needswap image templ then
    if swap_allowed image templ then
      Ret (mk_scores (rows templ - rows image + 1) (cols templ - cols image + 1)
             (fun y x => ccoeff_normed E templ image x y))
    else Raise cv2_error
  else
    Ret (mk_scores (rows image - rows templ + 1) (cols image - cols templ + 1)
           (fun y x => ccoeff_normed E image templ x y)).

End Libraries.

(** [cv2.minMaxLoc(result)]: the least and the greatest score and where
    each is first met, scanning row by row; a location is [(x, y)]. *)
Definition cells (r : scores) : list (nat * nat) :=
  flat_map (fun y => map (fun x => (x, y)) (seq 0 (r_cols r))) (seq 0 (r_rows r)).

Definition scan_step (r : scores)
    (acc : Q * Q * (nat * nat) * (nat * nat)) (loc : nat * nat)
    : Q * Q * (nat * nat) * (nat * nat) :=
  let '(min_val, max_val, min_loc, max_loc) := acc in
  let v := r_at r (snd loc) (fst loc) in
  let '(min_val, min_loc) :=
    if Qltb v min_val then (v, loc) else (min_val, min_loc) in
  let '(max_val, max_loc) :=
    if Qltb max_val v then (v, loc) else (max_val, max_loc) in
  (min_val, max_val, min_loc, max_loc).

Definition minMaxLoc (r : scores) : Q * Q * (nat * nat) * (nat * nat) :=
  let v0 := r_at r 0%nat 0%nat in
  fold_left (scan_step r) (cells r) (v0, v0, (0%nat, 0%nat), (0%nat, 0%nat)).

(** ** The script *)

Section Script.

Variable E : env.

(** [capture_screen()]: logs and re-raises what the grab or the conversion
    raises. *)
Definition capture_screen : M ndarray :=
  try_except
    (screenshot <- pyautogui_screenshot E ;;
     lift (cvtColor_RGB2BGR screenshot))
    (fun e =>
       logging ERROR (CaptureFailed e) ;;;
       raise e).

(** Default of the parameter [threshold] of [find_template]. *)
Definition find_template_threshold : Q := 0.6.

(** [find_template(screenshot, template_path, threshold)]. *)
Definition find_template (screenshot : ndarray) (template_path : string)
    (threshold : Q) : M (option point) :=
  try_except
    (template <- cv2_imread template_path ;;
     match template with
     | None => raise (ImageNotFoundError template_path)
     | Some template =>
         gray_screen <- lift (cvtColor_BGR2GRAY E screenshot) ;;
         let template_h := rows template in
         let template_w := cols template in
         result <- lift (matchTemplate E gray_screen template) ;;
         let '(min_val, max_val, min_loc, max_loc) := minMaxLoc result in
         if Qltb max_val threshold then
           logging DEBUG (BelowThreshold max_val threshold template_path) ;;;
           ret None
         else
           let top_left := max_loc in
           let center_x := (Z.of_nat (fst top_left) + Z.of_nat template_w / 2)%Z in
           let center_y := (Z.of_nat (snd top_left) + Z.of_nat template_h / 2)%Z in
           ret (Some (center_x, center_y))
     end)
    (fun e =>
       logging ERROR (TemplateMatchException e) ;;;
       ret None).

(** How one turn of the loop of [find_button] ends. *)
Inductive turn : Type :=
| Return (position : point)
| Continue
| Break.

(** Defaults of the parameters of [find_button]. *)
Definition find_button_max_attempts : Z := 3.
Definition find_button_interval : Q := 1.0.
Definition find_button_threshold : Q := 0.7.

(** The [try] statement inside the loop of [find_button]. *)
Definition find_button_attempt (template_path : string) (max_attempts : Z)
    (interval threshold : Q) (attempt : Z) : M turn :=
  try_except
    (screenshot <- capture_screen ;;
     position <- find_template screenshot template_path threshold ;;
     match position with
     | Some position =>
         logging INFO (Matched template_path attempt) ;;;
         ret (Return position)
     | None =>
         logging WARNING (NotMatched template_path attempt) ;;;
         (if (attempt <? max_attempts)%Z then time_sleep E interval else ret tt) ;;;
         ret Continue
     end)
    (fun e =>
       logging ERROR (FindButtonException e) ;;;
       ret Break).

(** What follows the loop. *)
Definition find_button_give_up (template_path : string) : M (option point) :=
  logging ERROR (AttemptsExceeded template_path) ;;;
  ret None.

Fixpoint find_button_loop (template_path : string) (max_attempts : Z)
    (interval threshold : Q) (attempts : list Z) : M (option point) :=
  match attempts with
  | [] => find_button_give_up template_path
  | attempt :: later =>
      t <- find_button_attempt template_path max_attempts interval threshold
             attempt ;;
      match t with
      | Return position => ret (Some position)
      | Continue =>
          find_button_loop template_path max_attempts interval threshold later
      | Break => find_button_give_up template_path
      end
  end.

(** [find_button(template_path, max_attempts, interval, threshold)]. *)
Definition find_button (template_path : string) (max_attempts : Z)
    (interval threshold : Q) : M (option point) :=
  find_button_loop template_path max_attempts interval threshold
    (range 1 (max_attempts + 1)).

(** Defaults of the parameters of [click_position]. *)
Definition click_position_clicks : Z := 1.
Definition click_position_move_duration : Q := 0.3.
Definition click_position_interval : Q := 0.2.

(** [click_position(position, clicks, move_duration, interval)]. *)
Definition click_position (position : point) (clicks : Z)
    (move_duration interval : Q) : M unit :=
  try_except
    (let '(x, y) := position in
     pyautogui_moveTo E x y move_duration ;;;
     for_each (range0 clicks)
       (fun _ => pyautogui_click E ;;; time_sleep E interval) ;;;
     logging INFO (Clicked x y))
    (fun e => logging ERROR (ClickFailed e)).

(** [**find_kwargs]: the keyword arguments [auto_click] hands to
    [find_button], each given or left to its default. *)
Record find_kwargs : Type := mk_find_kwargs {
  kw_interval : option Q;
  kw_threshold : option Q
}.

Definition no_kwargs : find_kwargs := mk_find_kwargs None None.

Definition given {A} (arg : option A) (default : A) : A :=
  match arg with
  | Some a => a
  | None => default
  end.

(** Defaults of the parameters of [auto_click]. *)
Definition auto_click_max_attempts : Z := 3.
Definition auto_click_click_times : Z := 1.
Definition auto_click_success_delay : Q := 1.0.

(** [auto_click(template_path, max_attempts, click_times, success_delay,
    **find_kwargs)]. *)
Definition auto_click (template_path : string) (max_attempts click_times : Z)
    (success_delay : Q) (kwargs : find_kwargs) : M bool :=
  position <- find_button template_path max_attempts
                (given (kw_interval kwargs) find_button_interval)
                (given (kw_threshold kwargs) find_button_threshold) ;;
  match position with
  | None => ret false
  | Some position =>
      click_position position click_times
        click_position_move_duration click_position_interval ;;;
      time_sleep E success_delay ;;;
      ret true
  end.

End Script.

(** ** What one capture and one match amount to *)

(** The outcome of the [n]-th capture: the grab, then the change of channel
    order. *)
Definition shot (E : env) (n : nat) : outcome ndarray :=
  match display E n with
  | Ret screenshot => cvtColor_RGB2BGR screenshot
  | Raise e => Raise e
  end.

(** What [capture_screen] logs on an outcome of the capture. *)
Definition capture_log (o : outcome ndarray) : list event :=
  match o with
  | Ret _ => []
  | Raise e => if is_Exception e then [Log ERROR (CaptureFailed e)] else []
  end.

Definition initial (fs : string -> option gray) : state :=
  mk_state fs 0 0 0 0 [].

(** The answer of [find_template], and what it logs, for given files. *)
Definition located (E : env) (fs : string -> option gray) (screenshot : ndarray)
    (template_path : string) (threshold : Q) : option point :=
  match fst (find_template E screenshot template_path threshold (initial fs)) with
  | Ret position => position
  | Raise _ => None
  end.

Definition located_trace (E : env) (fs : string -> option gray)
    (screenshot : ndarray) (template_path : string) (threshold : Q)
    : list event :=
  trace (snd (find_template E screenshot template_path threshold (initial fs))).

(** ** Scenes to run the script on *)

Module Scene.

Definition solid (h w : nat) (v : Z) : ndarray :=
  mk_ndarray h w (Some 3%nat) (fun _ _ _ => v).

Definition patch (h w : nat) (v : Z) : gray :=
  mk_gray h w (fun _ _ => v).

(** A dark screen, six wide and four high, with a two by two button of
    value 200 whose top left corner is at [(3, 1)]. *)
Definition desk : ndarray :=
  mk_ndarray 4 6 (Some 3%nat)
    (fun y x _ =>
       if ((3 <=? x) && (x <? 5) && (1 <=? y) && (y <? 3))%nat then 200%Z
       else 0%Z).

Definition button : gray := patch 2 2 200.

Definition disk (path : string) : option gray :=
  if String.eqb path "button.png" then Some button
  else if String.eqb path "poster.png" then Some (patch 3 3 200)
  else if String.eqb path "banner.png" then Some (patch 1 8 200)
  else None.

(** Grey value with weights 0.114, 0.587 and 0.299 in fixed point. *)
Definition luma14 (b g r : Z) : Z :=
  ((1868 * b + 9617 * g + 4899 * r + 8192) / 16384)%Z.

Definition window_equal (image templ : gray) (x y : nat) : bool :=
  forallb (fun j =>
    forallb (fun i => (px image (y + j) (x + i) =? px templ j i)%Z)
      (seq 0 (cols templ)))
    (seq 0 (rows templ)).

(** A stand-in for the correlation kernel: 1 where the window is the
    template, 0 elsewhere. *)
Definition exact (image templ : gray) (x y : nat) : Q :=
  if window_equal image templ x y then 1 else 0.

(** A kernel that finds every window alike, at 0.65. *)
Definition lukewarm (image templ : gray) (x y : nat) : Q := 0.65.

(** The desk on every screenshot, a pointer that obeys. *)
Definition calm : env :=
  mk_env (fun _ => Ret desk) (fun _ => None) (fun _ => None) luma14 exact
    (fun _ => None).

(** A dark screen without the button, on every screenshot. *)
Definition bare : env :=
  mk_env (fun _ => Ret (solid 4 6 0)) (fun _ => None) (fun _ => None)
    luma14 exact
    (fun _ => None).

(** The button shows from the second screenshot on. *)
Definition late : env :=
  mk_env (fun n => if (n =? 0)%nat then Ret (solid 4 6 0) else Ret desk)
    (fun _ => None) (fun _ => None) luma14 exact
    (fun _ => None).

(** The second grab fails. *)
Definition flaky : env :=
  mk_env (fun n => if (n =? 1)%nat then Raise OSError else Ret (solid 4 6 0))
    (fun _ => None) (fun _ => None) luma14 exact
    (fun _ => None).

(** The user interrupts the first grab. *)
Definition interrupted : env :=
  mk_env (fun _ => Raise KeyboardInterrupt) (fun _ => None) (fun _ => None)
    luma14 exact
    (fun _ => None).

(** The pointer refuses to move. *)
Definition stuck : env :=
  mk_env (fun _ => Ret desk) (fun _ => Some FailSafeException) (fun _ => None)
    luma14 exact
    (fun _ => None).

(** A screen of a single pixel. *)
Definition tiny : env :=
  mk_env (fun _ => Ret (solid 1 1 200)) (fun _ => None) (fun _ => None)
    luma14 exact
    (fun _ => None).

Definition tepid : env :=
  mk_env (fun _ => Ret desk) (fun _ => None) (fun _ => None) luma14 lukewarm
    (fun _ => None).

Definition start : state := initial disk.

End Scene.

(** ** Vocabulary of the statements *)

(** The [n]-th capture succeeds and the template is not found in it. *)
Definition misses (E : env) (fs : string -> option gray) (path : string)
    (threshold : Q) (n : nat) : Prop :=
  exists screenshot,
    shot E n = Ret screenshot /\
    located E fs screenshot path threshold = None.

(** The [n]-th capture succeeds and the template is found at [position]. *)
Definition hits (E : env) (fs : string -> option gray) (path : string)
    (threshold : Q) (n : nat) (position : point) : Prop :=
  exists screenshot,
    shot E n = Ret screenshot /\
    located E fs screenshot path threshold = Some position.

(** [cv2.imread] returns [None] for this path. *)
Definition unloadable (fs : string -> option gray) (path : string) : Prop :=
  match fs path with
  | Some g => gray_empty g = true
  | None => True
  end.

(** From [st] to [st']: [dshots] captures and [dreads] template loads more,
    files and pointer untouched. *)
Definition advanced (st st' : state) (dshots dreads : nat) : Prop :=
  files st' = files st /\
  shots st' = (shots st + dshots)%nat /\
  reads st' = (reads st + dreads)%nat /\
  moves st' = moves st /\
  clicks st' = clicks st.

(** [time.sleep] takes this length. *)
Definition sleepable (E : env) (secs : Q) : Prop :=
  time_sleep_fault E secs = None.

(** The outside raises nothing but [Exception]s: no interrupt arrives
    during a grab, a move, a click or a sleep. *)
Definition polite (E : env) : Prop :=
  (forall n e, display E n = Raise e -> is_Exception e = true) /\
  (forall n e, move_fault E n = Some e -> is_Exception e = true) /\
  (forall n e, click_fault E n = Some e -> is_Exception e = true) /\
  (forall secs e, long_sleep E secs = Some e -> is_Exception e = true).

(** The exception, if any, is not an [Exception]. *)
Definition only_interrupts {A} (o : outcome A) : Prop :=
  match o with
  | Ret _ => True
  | Raise e => is_Exception e = false
  end.

(** The score at a location [(x, y)], and the greatest score and its
    location as [cv2.minMaxLoc] reports them. *)
Definition score_at (r : scores) (loc : nat * nat) : Q :=
  r_at r (snd loc) (fst loc).

Definition max_val_of (acc : Q * Q * (nat * nat) * (nat * nat)) : Q :=
  snd (fst (fst acc)).

Definition max_loc_of (acc : Q * Q * (nat * nat) * (nat * nat)) : nat * nat :=
  snd acc.

Definition best_score (r : scores) : Q := max_val_of (minMaxLoc r).

Definition best_loc (r : scores) : nat * nat := max_loc_of (minMaxLoc r).

(** The centre of the template when its top left corner is at [loc]. *)
Definition center (loc : nat * nat) (template : gray) : point :=
  ((Z.of_nat (fst loc) + Z.of_nat (cols template) / 2)%Z,
   (Z.of_nat (snd loc) + Z.of_nat (rows template) / 2)%Z).

(** [n] clicks, each followed by its pause. *)
Fixpoint pulses (interval : Q) (n : nat) : list event :=
  match n with
  | O => []
  | S n' => Click :: Sleep interval :: pulses interval n'
  end.

(** The pointer takes the next move and the next [n] clicks without a
    fault. *)
Definition pointer_obeys (E : env) (st : state) (n : nat) : Prop :=
  move_fault E (moves st) = None /\
  forall i, (i < n)%nat -> click_fault E (clicks st + i) = None.

Ltac run :=
  unfold try_except, bind, ret, raise, lift, logging, emit; simpl.

(** ** The workflow *)

(** [auto_click(path)], every other parameter left to its default. *)
Definition auto_click_defaults (E : env) (template_path : string) : M bool :=
  auto_click E template_path auto_click_max_attempts auto_click_click_times
    auto_click_success_delay no_kwargs.

(** [str(n)] for an integer, as an f-string places it. *)
Definition str (n : Z) : string := NilZero.string_of_int (Z.to_int n).

(** [f"template_path/SelectJob{job_number}.png"]. *)
Definition select_job_path (job_number : Z) : string :=
  ("template_path/SelectJob" ++ str job_number ++ ".png")%string.

(** [job_flow(job_number)], the function nested in [main_workflow]. *)
Definition job_flow (E : env) (job_number : Z) : M unit :=
  selected <- auto_click_defaults E (select_job_path job_number) ;;
  if negb selected then ret tt
  else
    auto_click_defaults E "template_path/Select.png" ;;;
    auto_click_defaults E "template_path/Decision2.png" ;;;
    auto_click_defaults E "template_path/Start.png" ;;;
    ret tt.

(** [main_workflow()]. *)
Definition main_workflow (E : env) : M unit :=
  time_sleep E 1 ;;;
  auto_click_defaults E "template_path/ActivityFee.png" ;;;
  auto_click_defaults E "template_path/Close.png" ;;;
  worked <- auto_click_defaults E "template_path/Work.png" ;;
  (if negb worked then
     auto_click_defaults E "template_path/Work-1.png" ;;; ret tt
   else ret tt) ;;;
  job_flow E 1 ;;;
  time_sleep E 3 ;;;
  job_flow E 2 ;;;
  auto_click_defaults E "template_path/Home.png" ;;;
  auto_click_defaults E "template_path/Shop.png" ;;;
  auto_click_defaults E "template_path/DailyExchangeOffice.png" ;;;
  auto_click_defaults E "template_path/Recommendation.png" ;;;
  auto_click_defaults E "template_path/Decision.png" ;;;
  auto_click_defaults E "template_path/AP.png" ;;;
  auto_click_defaults E "template_path/PtUp.png" ;;;
  auto_click_defaults E "template_path/Decision.png" ;;;
  auto_click_defaults E "template_path/NoteUp.png" ;;;
  auto_click_defaults E "template_path/Decision.png" ;;;
  auto_click_defaults E "template_path/TryAgainTicket.png" ;;;
  auto_click_defaults E "template_path/Decision.png" ;;;
  auto_click_defaults E "template_path/RegenerationTicket.png" ;;;
  auto_click_defaults E "template_path/Decision.png" ;;;
  auto_click_defaults E "template_path/Home.png" ;;;
  auto_click_defaults E "template_path/Idol.png" ;;;
  auto_click_defaults E "template_path/SupportCard.png" ;;;
  auto_click_defaults E "template_path/Sort.png" ;;;
  auto_click_defaults E "template_path/Lv1.png" ;;;
  auto_click_defaults E "template_path/Detailed.png" ;;;
  auto_click_defaults E "template_path/LvStrengthen.png" ;;;
  auto_click_defaults E "template_path/LvStrengthen.png" ;;;
  auto_click_defaults E "template_path/Home.png" ;;;
  auto_click_defaults E "template_path/Mission.png" ;;;
  auto_click_defaults E "template_path/Lump-sumCollection.png" ;;;
  auto_click_defaults E "template_path/Close.png" ;;;
  auto_click_defaults E "template_path/X.png" ;;;
  auto_click_defaults E "template_path/Home.png" ;;;
  auto_click_defaults E "template_path/Present.png" ;;;
  auto_click_defaults E "template_path/Lump-sumCollection.png" ;;;
  auto_click_defaults E "template_path/Close.png" ;;;
  auto_click_defaults E "template_path/Home.png" ;;;
  ret tt.

(** ** More vocabulary *)

(** The lengths of the pauses in a trace, in order. *)
Fixpoint sleeps_of (tr : list event) : list Q :=
  match tr with
  | [] => []
  | Sleep secs :: tr' => secs :: sleeps_of tr'
  | _ :: tr' => sleeps_of tr'
  end.

(** A computation that lets nothing but an interrupt out, leaves the files
    alone and makes at most so many captures, moves and clicks. *)
Definition bounded {A} (dshots dmoves dclicks : nat) (m : M A) : Prop :=
  forall st : state,
    only_interrupts (fst (m st)) /\
    files (snd (m st)) = files st /\
    (shots st <= shots (snd (m st)) <= shots st + dshots)%nat /\
    (moves st <= moves (snd (m st)) <= moves st + dmoves)%nat /\
    (clicks st <= clicks (snd (m st)) <= clicks st + dclicks)%nat.

(** More scenes. *)
Module Stage.

(** A display that cannot be grabbed. *)
Definition dark : env :=
  mk_env (fun _ => Raise OSError) (fun _ => None) (fun _ => None)
    Scene.luma14 Scene.exact
    (fun _ => None).

(** The user interrupts the second grab. *)
Definition impatient : env :=
  mk_env (fun n => if (n =? 1)%nat then Raise KeyboardInterrupt
                   else Ret (Scene.solid 4 6 0))
    (fun _ => None) (fun _ => None) Scene.luma14 Scene.exact
    (fun _ => None).

(** The second click is refused. *)
Definition jammed : env :=
  mk_env (fun _ => Ret Scene.desk) (fun _ => None)
    (fun n => if (n =? 1)%nat then Some FailSafeException else None)
    Scene.luma14 Scene.exact
    (fun _ => None).

(** A screenshot already turned grey: two dimensions only. *)
Definition grey_shot : ndarray :=
  mk_ndarray 4 6 None (fun _ _ _ => 200%Z).

(** A disk without a single template. *)
Definition bare_disk : state := initial (fun _ => None).

End Stage.

(** No capture fails and no capture shows any template, at the default
    threshold of [find_button]. *)
Definition quiet (E : env) (st : state) : Prop :=
  forall (path : string) (n : nat),
    misses E (files st) path find_button_threshold n.

(** On a quiet display the computation returns [v] after [n] captures and
    as many matches, and leaves the pointer alone. *)
Definition idle {A} (E : env) (n : nat) (v : A) (m : M A) : Prop :=
  forall st : state,
    quiet E st ->
    exists st', m st = (Ret v, st') /\ advanced st st' n n.

(** * Properties *)

(** ** Comparison of scores *)

Lemma Qltb_lt (x y : Q) : Qltb x y = true <-> x < y.
Proof. unfold Qltb, Qlt. apply Z.ltb_lt. Qed.

Lemma Qltb_ge (x y : Q) : Qltb x y = false <-> y <= x.
Proof. unfold Qltb, Qle. apply Z.ltb_ge. Qed.

Lemma time_sleep_ok (E : env) (secs : Q) (st : state) :
  sleepable E secs ->
  time_sleep E secs st =
    (Ret tt, mk_state (files st) (shots st) (reads st) (moves st) (clicks st)
               (trace st ++ [Sleep secs])).
Proof.
  intros H. unfold time_sleep. rewrite H. reflexivity.
Qed.

(** Every platform sleeps a length between nothing and [sleep_sure]. *)
Lemma sleepable_sure (E : env) (secs : Q) :
  0 <= secs -> secs <= sleep_sure -> sleepable E secs.
Proof.
  intros H0 H1. unfold sleepable, time_sleep_fault.
  apply Qltb_ge in H0. rewrite H0.
  assert (H2 : Qltb sleep_overflow secs = false).
  { apply Qltb_ge. apply (Qle_trans _ _ _ H1). vm_compute. discriminate. }
  rewrite H2. apply Qltb_ge in H1. rewrite H1. reflexivity.
Qed.

Lemma sleepable_bounds (E : env) (secs : Q) :
  sleepable E secs -> 0 <= secs /\ secs <= sleep_overflow.
Proof.
  unfold sleepable, time_sleep_fault.
  destruct (Qltb secs 0) eqn:H0; [discriminate |].
  destruct (Qltb sleep_overflow secs) eqn:H1; [discriminate |].
  intros _. split; apply Qltb_ge; assumption.
Qed.

Lemma time_sleep_negative (E : env) (secs : Q) (st : state) :
  secs < 0 -> time_sleep E secs st = (Raise ValueError, st).
Proof.
  intros H. unfold time_sleep, time_sleep_fault.
  apply Qltb_lt in H. rewrite H. reflexivity.
Qed.

Lemma time_sleep_too_long (E : env) (secs : Q) (st : state) :
  sleep_overflow < secs -> time_sleep E secs st = (Raise OverflowError, st).
Proof.
  intros H. unfold time_sleep, time_sleep_fault.
  assert (H0 : Qltb secs 0 = false).
  { apply Qltb_ge. apply Qlt_le_weak. apply (Qlt_trans _ sleep_overflow);
      [vm_compute; reflexivity | exact H]. }
  rewrite H0. apply Qltb_lt in H. rewrite H. reflexivity.
Qed.

Lemma time_sleep_cases (E : env) (secs : Q) (st : state) :
  time_sleep E secs st =
    (Ret tt, mk_state (files st) (shots st) (reads st) (moves st) (clicks st)
               (trace st ++ [Sleep secs])) \/
  exists e,
    time_sleep_fault E secs = Some e /\ time_sleep E secs st = (Raise e, st).
Proof.
  unfold time_sleep. destruct (time_sleep_fault E secs) as [e |].
  - right. exists e. split; reflexivity.
  - left. reflexivity.
Qed.

Lemma time_sleep_fault_polite (E : env) (secs : Q) (e : exn) :
  polite E -> time_sleep_fault E secs = Some e -> is_Exception e = true.
Proof.
  intros (_ & _ & _ & Hp). unfold time_sleep_fault.
  destruct (Qltb secs 0); [intros [= <-]; reflexivity |].
  destruct (Qltb sleep_overflow secs); [intros [= <-]; reflexivity |].
  destruct (Qltb sleep_sure secs); [apply Hp | discriminate].
Qed.

(** ** One capture, one match *)

Lemma capture_screen_run (E : env) (st : state) :
  capture_screen E st =
    (shot E (shots st),
     mk_state (files st) (S (shots st)) (reads st) (moves st) (clicks st)
       (trace st ++ Screenshot :: capture_log (shot E (shots st)))).
Proof.
  unfold capture_screen, pyautogui_screenshot, shot. run.
  destruct (display E (shots st)) as [a | e]; simpl.
  - destruct (cvtColor_RGB2BGR a) as [b | e]; simpl; [reflexivity |].
    destruct (is_Exception e); simpl; [| reflexivity].
    rewrite <- app_assoc. reflexivity.
  - destruct (is_Exception e); simpl; [| reflexivity].
    rewrite <- app_assoc. reflexivity.
Qed.

Lemma find_template_run (E : env) (screenshot : ndarray) (path : string)
    (threshold : Q) (st : state) :
  find_template E screenshot path threshold st =
    (Ret (located E (files st) screenshot path threshold),
     mk_state (files st) (shots st) (S (reads st)) (moves st) (clicks st)
       (trace st ++ located_trace E (files st) screenshot path threshold)).
Proof.
  unfold located, located_trace, find_template, cv2_imread, initial. run.
  destruct (files st path) as [t |]; simpl.
  2: { rewrite <- app_assoc. reflexivity. }
  destruct (gray_empty t); simpl.
  { rewrite <- app_assoc. reflexivity. }
  unfold cvtColor_BGR2GRAY.
  destruct (color_input screenshot); simpl.
  2: { rewrite <- app_assoc. reflexivity. }
  unfold matchTemplate.
  destruct (needswap _ t); [destruct (swap_allowed _ t) |]; simpl;
    try (rewrite <- app_assoc; reflexivity);
    match goal with
    | |- context [minMaxLoc ?r] =>
        destruct (minMaxLoc r) as [[[mn mx] mnl] mxl]
    end;
    destruct (Qltb mx threshold); simpl; reflexivity.
Qed.

(** ** One turn of the loop *)

Section Turn.

Variable E : env.
Variables (path : string) (max_attempts : Z) (interval threshold : Q).

Lemma advanced_refl (st : state) : advanced st st 0 0.
Proof. unfold advanced. repeat split; lia. Qed.

Lemma advanced_trans (st1 st2 st3 : state) (a b c d : nat) :
  advanced st1 st2 a b -> advanced st2 st3 c d ->
  advanced st1 st3 (a + c) (b + d).
Proof.
  unfold advanced. intros (F1 & S1 & R1 & M1 & C1) (F2 & S2 & R2 & M2 & C2).
  repeat split; try congruence; lia.
Qed.

Lemma attempt_miss (attempt : Z) (st : state) :
  misses E (files st) path threshold (shots st) ->
  sleepable E interval ->
  exists st',
    find_button_attempt E path max_attempts interval threshold attempt st
      = (Ret Continue, st') /\
    advanced st st' 1 1.
Proof.
  intros (s & Hs & Hl) Hi.
  unfold find_button_attempt, try_except, bind.
  rewrite capture_screen_run, Hs, find_template_run. simpl.
  rewrite Hl. run.
  destruct (attempt <? max_attempts)%Z.
  - rewrite time_sleep_ok by assumption. simpl.
    eexists. split; [reflexivity |].
    unfold advanced; simpl. repeat split; lia.
  - eexists. split; [reflexivity |].
    unfold advanced; simpl. repeat split; lia.
Qed.

Lemma attempt_hit (attempt : Z) (st : state) (position : point) :
  hits E (files st) path threshold (shots st) position ->
  exists st',
    find_button_attempt E path max_attempts interval threshold attempt st
      = (Ret (Return position), st') /\
    advanced st st' 1 1.
Proof.
  intros (s & Hs & Hl).
  unfold find_button_attempt, try_except, bind.
  rewrite capture_screen_run, Hs, find_template_run. simpl.
  rewrite Hl. run.
  eexists. split; [reflexivity |].
  unfold advanced; simpl. repeat split; lia.
Qed.

Lemma attempt_capture_fault (attempt : Z) (st : state) (e : exn) :
  shot E (shots st) = Raise e ->
  is_Exception e = true ->
  exists st',
    find_button_attempt E path max_attempts interval threshold attempt st
      = (Ret Break, st') /\
    advanced st st' 1 0.
Proof.
  intros Hs He.
  unfold find_button_attempt, try_except, bind.
  rewrite capture_screen_run, Hs, He. run.
  eexists. split; [reflexivity |].
  unfold advanced; simpl. repeat split; lia.
Qed.

(** Whatever happens in a turn: one capture, at most one template load,
    the pointer untouched, no [Exception] let through. *)
Lemma attempt_frame (attempt : Z) (st : state) :
  exists o st',
    find_button_attempt E path max_attempts interval threshold attempt st
      = (o, st') /\
    only_interrupts o /\
    exists dreads, (dreads <= 1)%nat /\ advanced st st' 1 dreads.
Proof.
  unfold find_button_attempt, try_except, bind.
  rewrite capture_screen_run.
  destruct (shot E (shots st)) as [s | e] eqn:Hs.
  - rewrite find_template_run. simpl.
    destruct (located E (files st) s path threshold) as [pos |]; run.
    + do 2 eexists. split; [reflexivity |]. split; [exact I |].
      exists 1%nat. unfold advanced; simpl. repeat split; lia.
    + destruct (attempt <? max_attempts)%Z.
      * unfold time_sleep.
        destruct (time_sleep_fault E interval) as [e |]; run.
        -- destruct (is_Exception e) eqn:He; run.
           ++ do 2 eexists. split; [reflexivity |]. split; [exact I |].
              exists 1%nat. unfold advanced; simpl. repeat split; lia.
           ++ do 2 eexists. split; [reflexivity |]. split; [exact He |].
              exists 1%nat. unfold advanced; simpl. repeat split; lia.
        -- do 2 eexists. split; [reflexivity |]. split; [exact I |].
           exists 1%nat. unfold advanced; simpl. repeat split; lia.
      * do 2 eexists. split; [reflexivity |]. split; [exact I |].
        exists 1%nat. unfold advanced; simpl. repeat split; lia.
  - destruct (is_Exception e) eqn:He; run.
    + do 2 eexists. split; [reflexivity |]. split; [exact I |].
      exists 0%nat. unfold advanced; simpl. repeat split; lia.
    + do 2 eexists. split; [reflexivity |]. split; [exact He |].
      exists 0%nat. unfold advanced; simpl. repeat split; lia.
Qed.

End Turn.

(** ** The loop *)

Lemma range_length (lo hi : Z) : List.length (range lo hi) = Z.to_nat (hi - lo).
Proof. unfold range. rewrite length_map, length_seq. reflexivity. Qed.

Lemma range_split (lo hi : Z) (k : nat) :
  (k < Z.to_nat (hi - lo))%nat ->
  exists pre post,
    range lo hi = pre ++ (lo + Z.of_nat k)%Z :: post /\ List.length pre = k.
Proof.
  intros Hk. unfold range.
  replace (Z.to_nat (hi - lo)) with (k + S (Z.to_nat (hi - lo) - S k))%nat
    by lia.
  rewrite seq_app, map_app. simpl.
  eexists. eexists. split; [reflexivity |].
  rewrite length_map, length_seq. reflexivity.
Qed.

Lemma unloadable_located (E : env) (fs : string -> option gray)
    (screenshot : ndarray) (path : string) (threshold : Q) :
  unloadable fs path -> located E fs screenshot path threshold = None.
Proof.
  unfold unloadable, located, find_template, cv2_imread, initial. run.
  destruct (fs path) as [g |]; simpl; [| reflexivity].
  intros ->. reflexivity.
Qed.

Section Loop.

Variable E : env.
Variables (path : string) (max_attempts : Z) (interval threshold : Q).

Lemma give_up_run (st : state) :
  exists st',
    find_button_give_up path st = (Ret None, st') /\ advanced st st' 0 0.
Proof.
  unfold find_button_give_up. run.
  eexists. split; [reflexivity |].
  unfold advanced; simpl. repeat split; lia.
Qed.

(** Turns that miss are passed over one by one. *)
Lemma loop_skip (pre rest : list Z) :
  forall st : state,
    (forall i, (i < List.length pre)%nat ->
       misses E (files st) path threshold (shots st + i)) ->
    sleepable E interval ->
    exists st',
      advanced st st' (List.length pre) (List.length pre) /\
      find_button_loop E path max_attempts interval threshold (pre ++ rest) st
        = find_button_loop E path max_attempts interval threshold rest st'.
Proof.
  induction pre as [| attempt pre IH]; intros st Hmiss Hi.
  - exists st. split; [apply advanced_refl | reflexivity].
  - destruct (@attempt_miss E path max_attempts interval threshold attempt st)
      as (st1 & Hrun & Hadv);
      [ rewrite <- (Nat.add_0_r (shots st)); apply Hmiss; simpl; lia
      | assumption | ].
    destruct (IH st1) as (st2 & Hadv2 & Hloop); [| assumption |].
    + intros i Hlt. destruct Hadv as (Hf & Hs & _).
      rewrite Hf, Hs. replace (shots st + 1 + i)%nat with (shots st + S i)%nat
        by lia.
      apply Hmiss. simpl. lia.
    + exists st2. split.
      * apply (advanced_trans Hadv Hadv2).
      * simpl. unfold bind at 1. rewrite Hrun. exact Hloop.
Qed.

(** The loop as a whole: at most one capture per turn, the pointer
    untouched, no [Exception] let through. *)
Lemma loop_frame (attempts : list Z) :
  forall st : state,
  exists o st',
    find_button_loop E path max_attempts interval threshold attempts st
      = (o, st') /\
    only_interrupts o /\
    exists dshots dreads,
      (dshots <= List.length attempts)%nat /\ (dreads <= dshots)%nat /\
      advanced st st' dshots dreads.
Proof.
  induction attempts as [| attempt later IH]; intros st.
  - destruct (give_up_run st) as (st' & Hrun & Hadv).
    exists (Ret None), st'. split; [exact Hrun |]. split; [exact I |].
    exists 0%nat, 0%nat. simpl. split; [lia |]. split; [lia | exact Hadv].
  - simpl. unfold bind.
    destruct (attempt_frame E path max_attempts interval threshold attempt st)
      as (o & st1 & Hrun & Hint & dr & Hdr & Hadv).
    rewrite Hrun.
    destruct o as [[position | |] | e].
    + do 2 eexists. split; [reflexivity |]. split; [exact I |].
      exists 1%nat, dr. simpl. split; [lia |]. split; [lia | exact Hadv].
    + destruct (IH st1)
        as (o & st2 & Hloop & Hint2 & ds & dr2 & H1 & H2 & Hadv2).
      exists o, st2. split; [exact Hloop |]. split; [exact Hint2 |].
      exists (1 + ds)%nat, (dr + dr2)%nat. simpl.
      split; [lia |]. split; [lia |]. apply (advanced_trans Hadv Hadv2).
    + destruct (give_up_run st1) as (st2 & Hgive & Hadv2).
      exists (Ret None), st2. split; [exact Hgive |]. split; [exact I |].
      exists 1%nat, dr. simpl. split; [lia |]. split; [lia |].
      replace 1%nat with (1 + 0)%nat by lia.
      replace dr with (dr + 0)%nat by lia.
      apply (advanced_trans Hadv Hadv2).
    + do 2 eexists. split; [reflexivity |]. split; [exact Hint |].
      exists 1%nat, dr. simpl. split; [lia |]. split; [lia | exact Hadv].
Qed.

End Loop.

(** ** The three ways [find_button] ends *)

Section Locate.

Variable E : env.
Variables (path : string) (max_attempts : Z) (interval threshold : Q).

Lemma advanced_eq (st st' : state) (a b a' b' : nat) :
  advanced st st' a b -> a = a' -> b = b' -> advanced st st' a' b'.
Proof. intros H <- <-. exact H. Qed.

(** Exhausted: every turn misses. *)
Lemma find_button_exhausted (st : state) :
  sleepable E interval ->
  (forall i, (i < Z.to_nat max_attempts)%nat ->
     misses E (files st) path threshold (shots st + i)) ->
  exists st',
    find_button E path max_attempts interval threshold st = (Ret None, st') /\
    advanced st st' (Z.to_nat max_attempts) (Z.to_nat max_attempts).
Proof.
  intros Hi Hmiss. unfold find_button.
  assert (Hlen : List.length (range 1 (max_attempts + 1)) = Z.to_nat max_attempts).
  { rewrite range_length. f_equal. lia. }
  destruct (@loop_skip E path max_attempts interval threshold
              (range 1 (max_attempts + 1)) [] st) as (st1 & Hadv & Hloop).
  { rewrite Hlen. exact Hmiss. }
  { exact Hi. }
  rewrite app_nil_r in Hloop. rewrite Hloop. simpl.
  destruct (give_up_run path st1) as (st2 & Hgive & Hadv2).
  exists st2. split; [exact Hgive |].
  rewrite Hlen in Hadv.
  apply (advanced_eq (advanced_trans Hadv Hadv2)); lia.
Qed.

(** Found: the first [k - 1] turns miss, turn [k] hits. *)
Lemma find_button_found (st : state) (k : nat) (position : point) :
  sleepable E interval ->
  (1 <= k)%nat -> (Z.of_nat k <= max_attempts)%Z ->
  (forall i, (i < k - 1)%nat ->
     misses E (files st) path threshold (shots st + i)) ->
  hits E (files st) path threshold (shots st + (k - 1)) position ->
  exists st',
    find_button E path max_attempts interval threshold st
      = (Ret (Some position), st') /\
    advanced st st' k k.
Proof.
  intros Hi Hk Hmax Hmiss Hhit. unfold find_button.
  destruct (@range_split 1 (max_attempts + 1) (k - 1))
    as (pre & post & Hrange & Hlen); [lia |].
  rewrite Hrange.
  destruct (@loop_skip E path max_attempts interval threshold pre
              ((1 + Z.of_nat (k - 1))%Z :: post) st)
    as (st1 & Hadv & Hloop).
  { rewrite Hlen. exact Hmiss. }
  { exact Hi. }
  rewrite Hloop, Hlen in *. clear Hloop.
  destruct (@attempt_hit E path max_attempts interval threshold
              (1 + Z.of_nat (k - 1))%Z st1 position)
    as (st2 & Hrun & Hadv2).
  { destruct Hadv as (Hf & Hs & _). rewrite Hf, Hs. exact Hhit. }
  cbn [find_button_loop]. unfold bind. rewrite Hrun.
  exists st2. split; [reflexivity |].
  apply (advanced_eq (advanced_trans Hadv Hadv2)); lia.
Qed.

(** Aborted: the first [k - 1] turns miss, the capture of turn [k] raises
    an [Exception]. *)
Lemma find_button_aborted (st : state) (k : nat) (e : exn) :
  sleepable E interval ->
  (1 <= k)%nat -> (Z.of_nat k <= max_attempts)%Z ->
  (forall i, (i < k - 1)%nat ->
     misses E (files st) path threshold (shots st + i)) ->
  shot E (shots st + (k - 1)) = Raise e ->
  is_Exception e = true ->
  exists st',
    find_button E path max_attempts interval threshold st = (Ret None, st') /\
    advanced st st' k (k - 1).
Proof.
  intros Hi Hk Hmax Hmiss Hshot He. unfold find_button.
  destruct (@range_split 1 (max_attempts + 1) (k - 1))
    as (pre & post & Hrange & Hlen); [lia |].
  rewrite Hrange.
  destruct (@loop_skip E path max_attempts interval threshold pre
              ((1 + Z.of_nat (k - 1))%Z :: post) st)
    as (st1 & Hadv & Hloop).
  { rewrite Hlen. exact Hmiss. }
  { exact Hi. }
  rewrite Hloop, Hlen in *. clear Hloop.
  destruct (@attempt_capture_fault E path max_attempts interval threshold
              (1 + Z.of_nat (k - 1))%Z st1 e)
    as (st2 & Hrun & Hadv2).
  { destruct Hadv as (_ & Hs & _). rewrite Hs. exact Hshot. }
  { exact He. }
  cbn [find_button_loop]. unfold bind. rewrite Hrun.
  destruct (give_up_run path st2) as (st3 & Hgive & Hadv3).
  exists st3. split; [exact Hgive |].
  apply (advanced_eq (advanced_trans (advanced_trans Hadv Hadv2) Hadv3)); lia.
Qed.

(** In every case: the pointer is left alone, no [Exception] comes out, and
    there are at most [max_attempts] captures. *)
Lemma find_button_frame (st : state) :
  exists o st',
    find_button E path max_attempts interval threshold st = (o, st') /\
    only_interrupts o /\
    exists dshots dreads,
      (dshots <= Z.to_nat max_attempts)%nat /\ (dreads <= dshots)%nat /\
      advanced st st' dshots dreads.
Proof.
  unfold find_button.
  destruct (loop_frame E path max_attempts interval threshold
              (range 1 (max_attempts + 1)) st)
    as (o & st' & Hrun & Hint & ds & dr & H1 & H2 & Hadv).
  exists o, st'. split; [exact Hrun |]. split; [exact Hint |].
  exists ds, dr. rewrite range_length in H1.
  split; [lia |]. split; [lia | exact Hadv].
Qed.

End Locate.

(** ** Retrying locator *)

(** C3.  [find_button] with [max_attempts = 3] and a template that is in
    none of the captured screens goes through exactly three cycles of
    capture and match and returns [None]; and when the template is found on
    turn [k], with [k] at most [max_attempts], [find_button] returns that
    position after exactly [k] cycles, without a further one.  The
    interval is a length that [time.sleep] takes: not negative and not too
    long, as every length from nothing to [sleep_sure] is. *)
Theorem find_button_cycles (E : env) (path : string) (interval threshold : Q)
    (st : state) :
  sleepable E interval ->
  ((forall i, (i < 3)%nat ->
      misses E (files st) path threshold (shots st + i)) ->
   exists st',
     find_button E path 3 interval threshold st = (Ret None, st') /\
     advanced st st' 3 3)
  /\
  (forall (max_attempts : Z) (k : nat) (position : point),
     (1 <= k)%nat -> (Z.of_nat k <= max_attempts)%Z ->
     (forall i, (i < k - 1)%nat ->
        misses E (files st) path threshold (shots st + i)) ->
     hits E (files st) path threshold (shots st + (k - 1)) position ->
     exists st',
       find_button E path max_attempts interval threshold st
         = (Ret (Some position), st') /\
       advanced st st' k k).
Proof.
  intros Hi. split.
  - intros Hmiss.
    exact (@find_button_exhausted E path 3 interval threshold st Hi Hmiss).
  - intros max_attempts k position Hk Hmax Hmiss Hhit.
    exact (@find_button_found E path max_attempts interval threshold st k
             position Hi Hk Hmax Hmiss Hhit).
Qed.

Lemma find_button_cycles_witness :
  (exists st',
     find_button Scene.bare "button.png" 3 0 0.7 Scene.start = (Ret None, st') /\
     advanced Scene.start st' 3 3)
  /\
  (exists st',
     find_button Scene.late "button.png" 3 0 0.7 Scene.start
       = (Ret (Some (4, 2)%Z), st') /\
     advanced Scene.start st' 2 2).
Proof.
  split.
  - apply (@find_button_cycles Scene.bare "button.png" 0 0.7 Scene.start).
    + reflexivity.
    + intros i Hlt.
      destruct i as [| [| [| i]]]; [| | | lia];
        (eexists; split; [reflexivity | vm_compute; reflexivity]).
  - apply (@find_button_cycles Scene.late "button.png" 0 0.7 Scene.start).
    + reflexivity.
    + lia.
    + lia.
    + intros i Hlt.
      destruct i as [| i]; [| simpl in Hlt; lia].
      eexists; split; [reflexivity | vm_compute; reflexivity].
    + eexists; split; [reflexivity | vm_compute; reflexivity].
Defined.

(** C1, as the script has it.  The interval is a length that
    [time.sleep] takes, not negative and not too long.  A capture that
    raises an [Exception] on turn [k] ends the run: [find_button] returns
    [None] after [k] captures and [k - 1] matches, with no further turn.  A
    template that cannot be loaded does not end the run: [find_template]
    answers [None] for it, and [find_button] goes through all
    [max_attempts] cycles before it returns [None]. *)
Theorem find_button_fault_collapse (E : env) (path : string)
    (max_attempts : Z) (interval threshold : Q) (st : state) :
  sleepable E interval ->
  (forall (k : nat) (e : exn),
     (1 <= k)%nat -> (Z.of_nat k <= max_attempts)%Z ->
     (forall i, (i < k - 1)%nat ->
        misses E (files st) path threshold (shots st + i)) ->
     shot E (shots st + (k - 1)) = Raise e ->
     is_Exception e = true ->
     exists st',
       find_button E path max_attempts interval threshold st
         = (Ret None, st') /\
       advanced st st' k (k - 1))
  /\
  (unloadable (files st) path ->
   (forall i, (i < Z.to_nat max_attempts)%nat ->
      exists screenshot, shot E (shots st + i) = Ret screenshot) ->
   exists st',
     find_button E path max_attempts interval threshold st = (Ret None, st') /\
     advanced st st' (Z.to_nat max_attempts) (Z.to_nat max_attempts)).
Proof.
  intros Hi. split.
  - intros k e Hk Hmax Hmiss Hshot He.
    exact (@find_button_aborted E path max_attempts interval threshold st k e
             Hi Hk Hmax Hmiss Hshot He).
  - intros Hload Hshots.
    apply find_button_exhausted; [exact Hi |].
    intros i Hlt. destruct (Hshots i Hlt) as (s & Hs).
    exists s. split; [exact Hs |].
    apply unloadable_located. exact Hload.
Qed.

Lemma find_button_fault_collapse_witness :
  (exists st',
     find_button Scene.flaky "button.png" 3 0 0.7 Scene.start = (Ret None, st') /\
     advanced Scene.start st' 2 1)
  /\
  (exists st',
     find_button Scene.calm "missing.png" 3 0 0.7 Scene.start = (Ret None, st') /\
     advanced Scene.start st' 3 3).
Proof.
  split.
  - apply (proj1 (@find_button_fault_collapse Scene.flaky "button.png" 3 0 0.7
                    Scene.start eq_refl) 2%nat OSError).
    + lia.
    + lia.
    + intros i Hlt.
      destruct i as [| i]; [| simpl in Hlt; lia].
      eexists; split; [reflexivity | vm_compute; reflexivity].
    + reflexivity.
    + reflexivity.
  - apply (proj2 (@find_button_fault_collapse Scene.calm "missing.png" 3 0 0.7
                    Scene.start eq_refl)).
    + exact I.
    + intros i _. eexists. reflexivity.
Defined.

(** C1, as stated, fails for the template: the file is missing on the
    first turn, and two more captures and matches follow. *)
Lemma template_load_fault_is_retried :
  unloadable Scene.disk "missing.png" /\
  fst (find_button Scene.calm "missing.png" 3 1 0.7 Scene.start) = Ret None /\
  shots (snd (find_button Scene.calm "missing.png" 3 1 0.7 Scene.start)) = 3%nat /\
  reads (snd (find_button Scene.calm "missing.png" 3 1 0.7 Scene.start)) = 3%nat /\
  shots (snd (find_button Scene.calm "missing.png" 3 1 0.7 Scene.start)) <> 1%nat.
Proof.
  split; [exact I |].
  split; [vm_compute; reflexivity |].
  split; [vm_compute; reflexivity |].
  split; [vm_compute; reflexivity |].
  vm_compute. discriminate.
Qed.

(** ** Pointer *)

Section Pointer.

Variable E : env.

Lemma click_loop_ok (interval : Q) (xs : list Z) :
  forall st : state,
    (forall i, (i < List.length xs)%nat -> click_fault E (clicks st + i) = None) ->
    sleepable E interval ->
    for_each xs (fun _ => pyautogui_click E ;;; time_sleep E interval) st =
      (Ret tt,
       mk_state (files st) (shots st) (reads st) (moves st)
         (clicks st + List.length xs)
         (trace st ++ pulses interval (List.length xs))).
Proof.
  induction xs as [| x xs IH]; intros st Hok Hi.
  - simpl. unfold ret. rewrite Nat.add_0_r, app_nil_r.
    destruct st; reflexivity.
  - cbn [for_each]. unfold bind at 1. unfold bind at 1.
    unfold pyautogui_click at 1.
    rewrite <- (Nat.add_0_r (clicks st)) at 1.
    rewrite (Hok 0%nat) by (simpl; lia).
    rewrite time_sleep_ok by assumption.
    cbn [files shots reads moves clicks trace].
    rewrite IH; [| | assumption].
    + cbn [files shots reads moves clicks trace List.length pulses].
      rewrite <- !app_assoc. simpl.
      f_equal. f_equal. lia.
    + intros i Hlt. cbn [clicks].
      replace (S (clicks st) + i)%nat with (clicks st + S i)%nat by lia.
      apply Hok. simpl. lia.
Qed.

(** Whatever the pointer does, the loop of clicks makes at most one click
    per turn and touches nothing else. *)
Lemma click_loop_frame (interval : Q) (xs : list Z) :
  forall st : state,
  exists o st' rest,
    for_each xs (fun _ => pyautogui_click E ;;; time_sleep E interval) st
      = (o, st') /\
    files st' = files st /\ shots st' = shots st /\ reads st' = reads st /\
    moves st' = moves st /\
    (clicks st <= clicks st' <= clicks st + List.length xs)%nat /\
    trace st' = trace st ++ rest.
Proof.
  induction xs as [| x xs IH]; intros st.
  - simpl. unfold ret. exists (Ret tt), st, []. split; [reflexivity |].
    rewrite app_nil_r. repeat split; lia.
  - cbn [for_each]. unfold bind at 1. unfold bind at 1.
    unfold pyautogui_click at 1.
    destruct (click_fault E (clicks st)) as [e |].
    + do 3 eexists. split; [reflexivity |]. simpl.
      repeat split; try lia; try reflexivity.
    + unfold time_sleep at 1.
      destruct (time_sleep_fault E interval) as [e |].
      * unfold raise. do 3 eexists. split; [reflexivity |]. simpl.
        repeat split; try lia; try reflexivity.
      * unfold emit. cbn [files shots reads moves clicks trace].
        match goal with
        | |- context [for_each xs _ ?s] =>
            destruct (IH s) as (o & st' & rest & Hrun & Hf & Hs & Hr & Hm & Hc & Ht)
        end.
        rewrite Hrun. exists o, st', (Click :: Sleep interval :: rest).
        split; [reflexivity |].
        simpl in *. rewrite Ht, <- !app_assoc.
        repeat split; try assumption; lia.
Qed.

Lemma range0_length (n : Z) : List.length (range0 n) = Z.to_nat n.
Proof. unfold range0. rewrite range_length. f_equal. lia. Qed.

Lemma click_position_ok (x y count : Z) (move_duration interval : Q)
    (st : state) :
  pointer_obeys E st (Z.to_nat count) ->
  sleepable E interval ->
  click_position E (x, y) count move_duration interval st =
    (Ret tt,
     mk_state (files st) (shots st) (reads st) (S (moves st))
       (clicks st + Z.to_nat count)
       (trace st ++ MoveTo x y move_duration
                 :: pulses interval (Z.to_nat count)
                 ++ [Log INFO (Clicked x y)])).
Proof.
  intros (Hmove & Hclick) Hi.
  unfold click_position, try_except, bind, pyautogui_moveTo.
  rewrite Hmove.
  match goal with
  | |- context [for_each (range0 count) ?b ?s] =>
      assert (Hloop := @click_loop_ok interval (range0 count) s)
  end.
  rewrite range0_length in Hloop. unfold bind in Hloop.
  rewrite Hloop; [| exact Hclick | exact Hi].
  run. rewrite <- !app_assoc. reflexivity.
Qed.

(** Whatever the pointer does: one move, to the position given, then at
    most [clicks] clicks; no [Exception] comes out. *)
Lemma click_position_frame (x y count : Z) (move_duration interval : Q)
    (st : state) :
  exists o st' rest,
    click_position E (x, y) count move_duration interval st = (o, st') /\
    only_interrupts o /\
    files st' = files st /\ shots st' = shots st /\ reads st' = reads st /\
    moves st' = S (moves st) /\
    (clicks st <= clicks st'
       <= clicks st + Z.to_nat count)%nat /\
    trace st' = trace st ++ MoveTo x y move_duration :: rest.
Proof.
  unfold click_position, try_except, bind, pyautogui_moveTo.
  destruct (move_fault E (moves st)) as [e |].
  - destruct (is_Exception e) eqn:He; run.
    + do 3 eexists. split; [reflexivity |]. split; [exact I |].
      simpl. rewrite <- app_assoc. repeat split; try lia; try reflexivity.
    + do 3 eexists. split; [reflexivity |]. split; [exact He |].
      simpl. repeat split; try lia; try reflexivity.
  - match goal with
    | |- context [for_each (range0 count) ?b ?s] =>
        destruct (click_loop_frame interval (range0 count) s)
          as (o & st1 & rest & Hrun & Hf & Hs & Hr & Hm & Hc & Ht)
    end.
    unfold bind in Hrun. rewrite Hrun. rewrite range0_length in Hc.
    simpl in *.
    destruct o as [[] | e].
    + run. do 3 eexists. split; [reflexivity |]. split; [exact I |].
      simpl. rewrite Ht, <- !app_assoc. simpl.
      repeat split; try assumption; try lia; try reflexivity.
    + destruct (is_Exception e) eqn:He; run.
      * do 3 eexists. split; [reflexivity |]. split; [exact I |].
        simpl. rewrite Ht, <- !app_assoc. simpl.
        repeat split; try assumption; try lia; try reflexivity.
      * do 3 eexists. split; [reflexivity |]. split; [exact He |].
        simpl. rewrite Ht, <- !app_assoc. simpl.
        repeat split; try assumption; try lia; try reflexivity.
Qed.

End Pointer.

(** C8, as the script has it.  With a pointer that obeys and an interval
    that [time.sleep] takes, not negative and not too long, [click_position]
    first moves the pointer to the position, over [move_duration], then
    makes [clicks] clicks and pauses [interval] after every one of them,
    the last included. *)
Theorem click_position_sequence (E : env) (x y count : Z)
    (move_duration interval : Q) (st : state) :
  pointer_obeys E st (Z.to_nat count) ->
  sleepable E interval ->
  exists st',
    click_position E (x, y) count move_duration interval st = (Ret tt, st') /\
    trace st' =
      trace st ++ MoveTo x y move_duration
               :: pulses interval (Z.to_nat count)
               ++ [Log INFO (Clicked x y)] /\
    moves st' = S (moves st) /\
    clicks st' = (clicks st + Z.to_nat count)%nat.
Proof.
  intros Hobey Hi.
  eexists. split; [apply click_position_ok; assumption |].
  simpl. repeat split.
Qed.

Lemma click_position_sequence_witness :
  exists st',
    click_position Scene.calm (5, 5)%Z 2 0.3 0.2 Scene.start = (Ret tt, st') /\
    trace st' =
      trace Scene.start ++ MoveTo 5 5 0.3
               :: pulses 0.2 (Z.to_nat 2) ++ [Log INFO (Clicked 5 5)] /\
    moves st' = S (moves Scene.start) /\
    clicks st' = (clicks Scene.start + Z.to_nat 2)%nat.
Proof.
  apply (@click_position_sequence Scene.calm 5 5 2 0.3 0.2 Scene.start).
  - split; [reflexivity | intros i _; reflexivity].
  - reflexivity.
Defined.

(** C8, as stated, fails: with two clicks there are two pauses, one of
    them after the last click, where the claim has a single pause between
    the two. *)
Lemma click_position_pauses_after_last_click :
  trace (snd (click_position Scene.calm (5, 5)%Z 2 0.3 0.2 Scene.start)) =
    [MoveTo 5 5 0.3; Click; Sleep 0.2; Click; Sleep 0.2;
     Log INFO (Clicked 5 5)] /\
  trace (snd (click_position Scene.calm (5, 5)%Z 2 0.3 0.2 Scene.start)) <>
    [MoveTo 5 5 0.3; Click; Sleep 0.2; Click; Log INFO (Clicked 5 5)].
Proof.
  split.
  - vm_compute. reflexivity.
  - vm_compute. discriminate.
Qed.

(** ** Locate and click *)

(** With a settle delay that [time.sleep] takes, [auto_click] lets
    nothing but an interrupt through. *)
Lemma auto_click_lets_only_interrupts_through (E : env) (path : string)
    (max_attempts click_times : Z) (success_delay : Q) (kwargs : find_kwargs)
    (st : state) :
  sleepable E success_delay ->
  exists o st',
    auto_click E path max_attempts click_times success_delay kwargs st
      = (o, st') /\
    only_interrupts o.
Proof.
  intros Hd. unfold auto_click, bind.
  destruct (find_button_frame E path max_attempts
              (given (kw_interval kwargs) find_button_interval)
              (given (kw_threshold kwargs) find_button_threshold) st)
    as (o & st1 & Hrun & Hint & _).
  rewrite Hrun.
  destruct o as [[[x y] |] | e].
  - destruct (click_position_frame E x y click_times
                click_position_move_duration click_position_interval st1)
      as (o & st2 & rest & Hclick & Hint2 & _).
    rewrite Hclick.
    destruct o as [[] | e].
    + rewrite time_sleep_ok by assumption.
      do 2 eexists. split; [reflexivity | exact I].
    + do 2 eexists. split; [reflexivity | exact Hint2].
  - do 2 eexists. split; [reflexivity | exact I].
  - do 2 eexists. split; [reflexivity | exact Hint].
Qed.

(** An interrupt does come through. *)
Lemma auto_click_interrupt_propagates :
  fst (auto_click Scene.interrupted "button.png" 3 1 1 no_kwargs Scene.start)
    = Raise KeyboardInterrupt.
Proof. vm_compute. reflexivity. Qed.

(** ** When no interrupt arrives *)

Section Polite.

Variable E : env.
Hypothesis HP : polite E.

Lemma shot_polite (n : nat) (e : exn) :
  shot E n = Raise e -> is_Exception e = true.
Proof.
  destruct HP as (Hd & _). unfold shot.
  destruct (display E n) as [a | e'] eqn:Hn.
  - unfold cvtColor_RGB2BGR. destruct (color_input a); [discriminate |].
    intros [= <-]. reflexivity.
  - intros [= <-]. apply (Hd n). exact Hn.
Qed.

Lemma attempt_polite (path : string) (max_attempts : Z)
    (interval threshold : Q) (attempt : Z) (st : state) :
  exists t st',
    find_button_attempt E path max_attempts interval threshold attempt st
      = (Ret t, st').
Proof.
  unfold find_button_attempt, try_except, bind.
  rewrite capture_screen_run.
  destruct (shot E (shots st)) as [s | e] eqn:Hs.
  - rewrite find_template_run. simpl.
    destruct (located E (files st) s path threshold) as [pos |]; run.
    + do 2 eexists. reflexivity.
    + destruct (attempt <? max_attempts)%Z.
      * unfold time_sleep.
        destruct (time_sleep_fault E interval) as [e |] eqn:Hf; run.
        -- rewrite (time_sleep_fault_polite _ HP Hf). run.
           do 2 eexists. reflexivity.
        -- do 2 eexists. reflexivity.
      * do 2 eexists. reflexivity.
  - rewrite (shot_polite _ Hs). run. do 2 eexists. reflexivity.
Qed.

Lemma find_button_polite (path : string) (max_attempts : Z)
    (interval threshold : Q) (st : state) :
  exists position st',
    find_button E path max_attempts interval threshold st
      = (Ret position, st').
Proof.
  unfold find_button. generalize (range 1 (max_attempts + 1)) st.
  intros attempts. induction attempts as [| attempt later IH]; intros st0.
  - simpl. unfold find_button_give_up. run. do 2 eexists. reflexivity.
  - cbn [find_button_loop]. unfold bind.
    destruct (attempt_polite path max_attempts interval threshold attempt st0)
      as (t & st1 & Hrun).
    rewrite Hrun. destruct t as [position | |].
    + do 2 eexists. reflexivity.
    + apply IH.
    + unfold find_button_give_up. run. do 2 eexists. reflexivity.
Qed.

Lemma click_loop_polite (interval : Q) (xs : list Z) :
  forall st : state,
  exists o st',
    for_each xs (fun _ => pyautogui_click E ;;; time_sleep E interval) st
      = (o, st') /\
    forall e, o = Raise e -> is_Exception e = true.
Proof.
  destruct HP as (_ & _ & Hc & _).
  induction xs as [| x xs IH]; intros st.
  - simpl. unfold ret. do 2 eexists. split; [reflexivity | discriminate].
  - cbn [for_each]. unfold bind at 1. unfold bind at 1.
    unfold pyautogui_click at 1.
    destruct (click_fault E (clicks st)) as [e |] eqn:Hclick.
    + do 2 eexists. split; [reflexivity |].
      intros e' [= <-]. apply (Hc _ _ Hclick).
    + unfold time_sleep at 1.
      destruct (time_sleep_fault E interval) as [e |] eqn:Hf.
      * unfold raise. do 2 eexists. split; [reflexivity |].
        intros e' [= <-]. apply (time_sleep_fault_polite _ HP Hf).
      * unfold emit. apply IH.
Qed.

Lemma click_position_polite (position : point) (count : Z)
    (move_duration interval : Q) (st : state) :
  exists st',
    click_position E position count move_duration interval st = (Ret tt, st').
Proof.
  destruct position as [x y].
  unfold click_position, try_except, bind, pyautogui_moveTo.
  destruct (move_fault E (moves st)) as [e |] eqn:Hmove.
  - destruct HP as (_ & Hm & _). rewrite (Hm _ _ Hmove). run.
    eexists. reflexivity.
  - match goal with
    | |- context [for_each (range0 count) ?b ?s] =>
        destruct (click_loop_polite interval (range0 count) s)
          as (o & st1 & Hrun & Hexc)
    end.
    unfold bind in Hrun. rewrite Hrun.
    destruct o as [[] | e].
    + run. eexists. reflexivity.
    + rewrite (Hexc e eq_refl). run. eexists. reflexivity.
Qed.

End Polite.

(** C2.  [auto_click] and what it calls turn every fault into an answer.
    With a settle delay that [time.sleep] takes, and whatever the display,
    the files and the pointer do, [auto_click] returns a boolean or lets an
    interrupt through, never an [Exception]; [find_button] and
    [click_position] do so for every argument.  And when no interrupt
    arrives, so that all the outside raises is [Exception]s, [find_button]
    returns a position or [None], [click_position] returns, and
    [auto_click] returns a boolean. *)
Theorem auto_click_degrades_faults (E : env) (path : string)
    (max_attempts click_times : Z) (success_delay : Q) (kwargs : find_kwargs)
    (st : state) :
  sleepable E success_delay ->
  (exists o st',
     auto_click E path max_attempts click_times success_delay kwargs st
       = (o, st') /\
     only_interrupts o) /\
  (forall interval threshold st0,
     only_interrupts
       (fst (find_button E path max_attempts interval threshold st0))) /\
  (forall position interval st0,
     only_interrupts
       (fst (click_position E position click_times
               click_position_move_duration interval st0))) /\
  (polite E ->
   (forall interval threshold st0,
      exists position st',
        find_button E path max_attempts interval threshold st0
          = (Ret position, st')) /\
   (forall position interval st0,
      exists st',
        click_position E position click_times click_position_move_duration
          interval st0 = (Ret tt, st')) /\
   exists b st',
     auto_click E path max_attempts click_times success_delay kwargs st
       = (Ret b, st')).
Proof.
  intros Hd. split; [| split; [| split]].
  - apply auto_click_lets_only_interrupts_through. exact Hd.
  - intros interval threshold st0.
    destruct (find_button_frame E path max_attempts interval threshold st0)
      as (o & st' & Hrun & Hint & _).
    rewrite Hrun. exact Hint.
  - intros [x y] interval st0.
    destruct (click_position_frame E x y click_times
                click_position_move_duration interval st0)
      as (o & st' & rest & Hrun & Hint & _).
    rewrite Hrun. exact Hint.
  - intros HP. split; [| split].
    + intros interval threshold st0. apply find_button_polite. exact HP.
    + intros position interval st0. apply click_position_polite. exact HP.
    + unfold auto_click, bind.
      destruct (find_button_polite HP path max_attempts
                  (given (kw_interval kwargs) find_button_interval)
                  (given (kw_threshold kwargs) find_button_threshold) st)
        as (position & st1 & Hrun).
      rewrite Hrun. destruct position as [position |].
      * destruct (click_position_polite HP position click_times
                    click_position_move_duration click_position_interval st1)
          as (st2 & Hclick).
        rewrite Hclick. rewrite time_sleep_ok by assumption.
        do 2 eexists. reflexivity.
      * do 2 eexists. reflexivity.
Qed.

Lemma auto_click_degrades_faults_witness :
  (exists b st',
     auto_click Scene.stuck "button.png" 3 2 1 no_kwargs Scene.start
       = (Ret b, st')) /\
  (exists b st',
     auto_click Scene.flaky "button.png" 3 2 1 no_kwargs Scene.start
       = (Ret b, st')).
Proof.
  split.
  - apply (@auto_click_degrades_faults Scene.stuck "button.png" 3 2 1 no_kwargs
             Scene.start).
    + reflexivity.
    + repeat split; simpl; intros n e; try discriminate.
      intros [= <-]. reflexivity.
  - apply (@auto_click_degrades_faults Scene.flaky "button.png" 3 2 1 no_kwargs
             Scene.start).
    + reflexivity.
    + repeat split; simpl; intros n e; try discriminate.
      destruct (n =? 1)%nat; [intros [= <-]; reflexivity | discriminate].
Defined.

(** Outside the lengths that [time.sleep] takes the settle pause is the
    one call of [auto_click] that no handler covers: with the button found
    and clicked and a settle delay of [-1.0], [time.sleep] raises
    [ValueError] and the caller of [auto_click] receives it. *)
Lemma auto_click_negative_delay_raises :
  fst (auto_click Scene.calm "button.png" 3 1 (-1) no_kwargs Scene.start)
    = Raise ValueError /\
  is_Exception ValueError = true /\
  clicks (snd (auto_click Scene.calm "button.png" 3 1 (-1) no_kwargs
                 Scene.start)) = 1%nat.
Proof.
  split; [vm_compute; reflexivity |].
  split; [reflexivity |].
  vm_compute. reflexivity.
Qed.


(** ** The greatest score *)

Lemma in_cells (r : scores) (x y : nat) :
  In (x, y) (cells r) <-> (x < r_cols r)%nat /\ (y < r_rows r)%nat.
Proof.
  unfold cells. rewrite in_flat_map. split.
  - intros (y' & Hy & Hin). apply in_map_iff in Hin.
    destruct Hin as (x' & Heq & Hx). injection Heq as <- <-.
    apply in_seq in Hy, Hx. lia.
  - intros (Hx & Hy). exists y. split; [apply in_seq; lia |].
    apply in_map_iff. exists x. split; [reflexivity | apply in_seq; lia].
Qed.

Lemma scan_step_max (r : scores) (acc : Q * Q * (nat * nat) * (nat * nat))
    (loc : nat * nat) :
  max_val_of (scan_step r acc loc) =
    (if Qltb (max_val_of acc) (score_at r loc) then score_at r loc
     else max_val_of acc) /\
  max_loc_of (scan_step r acc loc) =
    (if Qltb (max_val_of acc) (score_at r loc) then loc else max_loc_of acc).
Proof.
  destruct acc as [[[mn mx] mnl] mxl].
  unfold scan_step, max_val_of, max_loc_of, score_at. simpl.
  destruct (Qltb (r_at r (snd loc) (fst loc)) mn);
    destruct (Qltb mx (r_at r (snd loc) (fst loc))); split; reflexivity.
Qed.

Lemma scan_max (r : scores) (l : list (nat * nat)) :
  forall acc,
    max_val_of acc = score_at r (max_loc_of acc) ->
    max_val_of (fold_left (scan_step r) l acc)
      = score_at r (max_loc_of (fold_left (scan_step r) l acc)) /\
    (max_loc_of (fold_left (scan_step r) l acc) = max_loc_of acc \/
     In (max_loc_of (fold_left (scan_step r) l acc)) l) /\
    max_val_of acc <= max_val_of (fold_left (scan_step r) l acc) /\
    (forall loc, In loc l ->
       score_at r loc <= max_val_of (fold_left (scan_step r) l acc)).
Proof.
  induction l as [| loc l IH]; intros acc Hacc.
  - simpl. repeat split.
    + exact Hacc.
    + left. reflexivity.
    + apply Qle_refl.
    + intros loc [].
  - cbn [fold_left].
    destruct (scan_step_max r acc loc) as (Hv & Hl).
    destruct (IH (scan_step r acc loc)) as (IH1 & IH2 & IH3 & IH4).
    { rewrite Hv, Hl.
      destruct (Qltb (max_val_of acc) (score_at r loc)); [reflexivity | exact Hacc]. }
    split; [exact IH1 |]. split; [| split].
    + destruct IH2 as [IH2 | IH2].
      * rewrite IH2, Hl.
        destruct (Qltb (max_val_of acc) (score_at r loc)).
        -- right. left. reflexivity.
        -- left. reflexivity.
      * right. right. exact IH2.
    + eapply Qle_trans; [| exact IH3]. rewrite Hv.
      destruct (Qltb (max_val_of acc) (score_at r loc)) eqn:Hlt.
      * apply Qlt_le_weak. apply Qltb_lt. exact Hlt.
      * apply Qle_refl.
    + intros loc' [<- | Hin]; [| apply IH4; exact Hin].
      eapply Qle_trans; [| exact IH3]. rewrite Hv.
      destruct (Qltb (max_val_of acc) (score_at r loc)) eqn:Hlt.
      * apply Qle_refl.
      * apply Qltb_ge. exact Hlt.
Qed.

(** [cv2.minMaxLoc] reports a greatest score, and a location inside the
    array where it is met. *)
Lemma minMaxLoc_greatest (r : scores) :
  (0 < r_cols r)%nat -> (0 < r_rows r)%nat ->
  best_score r = score_at r (best_loc r) /\
  (fst (best_loc r) < r_cols r)%nat /\ (snd (best_loc r) < r_rows r)%nat /\
  (forall x y, (x < r_cols r)%nat -> (y < r_rows r)%nat ->
     r_at r y x <= best_score r).
Proof.
  intros Hc Hr. unfold best_score, best_loc, minMaxLoc.
  destruct (@scan_max r (cells r)
              (r_at r 0%nat 0%nat, r_at r 0%nat 0%nat, (0%nat, 0%nat),
               (0%nat, 0%nat)))
    as (H1 & H2 & _ & H4); [reflexivity |].
  split; [exact H1 |].
  assert (Hin : In (max_loc_of
                      (fold_left (scan_step r) (cells r)
                         (r_at r 0%nat 0%nat, r_at r 0%nat 0%nat,
                          (0%nat, 0%nat), (0%nat, 0%nat))))
                   (cells r)).
  { destruct H2 as [-> | H2]; [| exact H2].
    apply in_cells. split; assumption. }
  destruct (max_loc_of _) as [bx by_] eqn:Hb.
  apply in_cells in Hin. simpl.
  split; [apply Hin |]. split; [apply Hin |].
  intros x y Hx Hy. apply (H4 (x, y)). apply in_cells. split; assumption.
Qed.

(** ** Template matcher *)

Lemma minMaxLoc_split (r : scores) :
  exists min_val min_loc,
    minMaxLoc r = (min_val, best_score r, min_loc, best_loc r).
Proof.
  unfold best_score, best_loc, max_val_of, max_loc_of.
  destruct (minMaxLoc r) as [[[mn mx] mnl] mxl]. simpl.
  exists mn, mnl. reflexivity.
Qed.

(** The answer of [find_template] for a pair that OpenCV scores. *)
Lemma located_scored (E : env) (fs : string -> option gray)
    (screenshot : ndarray) (path : string) (threshold : Q)
    (t g : gray) (r : scores) :
  fs path = Some t -> gray_empty t = false ->
  cvtColor_BGR2GRAY E screenshot = Ret g ->
  matchTemplate E g t = Ret r ->
  located E fs screenshot path threshold =
    if Qltb (best_score r) threshold then None
    else Some (center (best_loc r) t).
Proof.
  intros Hf He Hg Hr.
  unfold located, find_template, cv2_imread, initial. run.
  rewrite Hf, He. simpl. rewrite Hg. simpl. rewrite Hr. simpl.
  destruct (minMaxLoc_split r) as (mn & mnl & ->).
  destruct (Qltb (best_score r) threshold); reflexivity.
Qed.

(** A position comes only out of a scored pair, at or above the
    threshold. *)
Lemma located_Some_inv (E : env) (fs : string -> option gray)
    (screenshot : ndarray) (path : string) (threshold : Q) (p : point) :
  located E fs screenshot path threshold = Some p ->
  exists t g r,
    fs path = Some t /\ gray_empty t = false /\
    cvtColor_BGR2GRAY E screenshot = Ret g /\
    matchTemplate E g t = Ret r /\
    Qltb (best_score r) threshold = false /\
    p = center (best_loc r) t.
Proof.
  unfold located, find_template, cv2_imread, initial. run.
  destruct (fs path) as [t |] eqn:Hf; simpl; [| discriminate].
  destruct (gray_empty t) eqn:He; simpl; [discriminate |].
  destruct (cvtColor_BGR2GRAY E screenshot) as [g | e] eqn:Hg; simpl.
  2: { destruct (is_Exception e); simpl; discriminate. }
  destruct (matchTemplate E g t) as [r | e] eqn:Hr; simpl.
  2: { destruct (is_Exception e); simpl; discriminate. }
  destruct (minMaxLoc_split r) as (mn & mnl & ->).
  destruct (Qltb (best_score r) threshold) eqn:Hlt; simpl; [discriminate |].
  intros [= <-]. exists t, g, r. repeat split; assumption.
Qed.

(** C5.  For a screen and a template that loads, where OpenCV scores the
    pair: the score compared with the threshold is the greatest one of the
    array; below the threshold [find_template] returns [None], and
    otherwise the centre of the rectangle at the location of that score,
    the top left corner plus half the width and half the height of the
    template in integer division.  A position is returned exactly when
    the greatest score is at least the threshold. *)
Theorem find_template_threshold_rule (E : env) (screenshot : ndarray)
    (path : string) (threshold : Q) (st : state) (t g : gray) (r : scores) :
  files st path = Some t -> gray_empty t = false ->
  cvtColor_BGR2GRAY E screenshot = Ret g ->
  matchTemplate E g t = Ret r ->
  (best_score r = score_at r (best_loc r) /\
   forall x y, (x < r_cols r)%nat -> (y < r_rows r)%nat ->
     r_at r y x <= best_score r) /\
  (best_score r < threshold ->
   fst (find_template E screenshot path threshold st) = Ret None) /\
  (threshold <= best_score r ->
   fst (find_template E screenshot path threshold st) =
     Ret (Some ((Z.of_nat (fst (best_loc r)) + Z.of_nat (cols t) / 2)%Z,
                (Z.of_nat (snd (best_loc r)) + Z.of_nat (rows t) / 2)%Z))) /\
  ((exists position,
      fst (find_template E screenshot path threshold st) = Ret (Some position))
   <-> threshold <= best_score r).
Proof.
  intros Hf He Hg Hr.
  assert (Hdim : (0 < r_cols r)%nat /\ (0 < r_rows r)%nat).
  { unfold matchTemplate in Hr.
    destruct (needswap g t); [destruct (swap_allowed g t) |];
      try discriminate; injection Hr as <-; simpl; lia. }
  destruct (minMaxLoc_greatest r) as (H1 & _ & _ & H4); [apply Hdim .. |].
  rewrite find_template_run. cbn [fst].
  rewrite (located_scored E (files st) screenshot path threshold Hf He Hg Hr).
  split; [split; assumption |].
  split; [| split].
  - intros Hlt. apply Qltb_lt in Hlt. rewrite Hlt. reflexivity.
  - intros Hge. apply Qltb_ge in Hge. rewrite Hge. reflexivity.
  - destruct (Qltb (best_score r) threshold) eqn:Hlt.
    + split.
      * intros (p & Hp). discriminate.
      * intros Hge. apply Qltb_lt in Hlt.
        exfalso. exact (Qlt_not_le _ _ Hlt Hge).
    + split.
      * intros _. apply Qltb_ge. exact Hlt.
      * intros _. eexists. reflexivity.
Qed.

Lemma find_template_threshold_rule_witness :
  fst (find_template Scene.calm Scene.desk "button.png" 0.6 Scene.start)
    = Ret (Some (4, 2)%Z) /\
  fst (find_template Scene.bare (Scene.solid 4 6 0) "button.png" 0.6 Scene.start)
    = Ret None.
Proof.
  split.
  - destruct (@find_template_threshold_rule Scene.calm Scene.desk "button.png"
                0.6 Scene.start Scene.button
                (mk_gray 4 6
                   (fun y x =>
                      Scene.luma14 (sample Scene.desk y x 0%nat)
                        (sample Scene.desk y x 1%nat)
                        (sample Scene.desk y x 2%nat)))
                _ eq_refl eq_refl eq_refl eq_refl)
      as (_ & _ & Hfound & _).
    rewrite Hfound; [reflexivity | vm_compute; discriminate].
  - destruct (@find_template_threshold_rule Scene.bare (Scene.solid 4 6 0)
                "button.png" 0.6 Scene.start Scene.button
                (mk_gray 4 6
                   (fun y x =>
                      Scene.luma14 (sample (Scene.solid 4 6 0) y x 0%nat)
                        (sample (Scene.solid 4 6 0) y x 1%nat)
                        (sample (Scene.solid 4 6 0) y x 2%nat)))
                _ eq_refl eq_refl eq_refl eq_refl)
      as (_ & Hbelow & _ & _).
    apply Hbelow. vm_compute. reflexivity.
Defined.

(** C6.  A position that [find_template] returns for a template that fits
    inside the screen lies inside the screen. *)
Theorem find_template_within_screen (E : env) (screenshot : ndarray)
    (path : string) (threshold : Q) (st : state) (t : gray) (x y : Z) :
  files st path = Some t ->
  (rows t <= height screenshot)%nat -> (cols t <= width screenshot)%nat ->
  fst (find_template E screenshot path threshold st) = Ret (Some (x, y)) ->
  (0 <= x < Z.of_nat (width screenshot))%Z /\
  (0 <= y < Z.of_nat (height screenshot))%Z.
Proof.
  intros Hf Hrows Hcols Hfound.
  rewrite find_template_run in Hfound. cbn [fst] in Hfound.
  injection Hfound as Hloc.
  apply located_Some_inv in Hloc.
  destruct Hloc as (t' & g & r & Hf' & He & Hg & Hr & _ & Hp).
  rewrite Hf in Hf'. injection Hf' as <-.
  unfold cvtColor_BGR2GRAY in Hg.
  destruct (color_input screenshot); [| discriminate].
  injection Hg as <-.
  unfold matchTemplate, needswap in Hr. cbn [rows cols] in Hr.
  replace (height screenshot <? rows t)%nat with false in Hr
    by (symmetry; apply Nat.ltb_ge; exact Hrows).
  replace (width screenshot <? cols t)%nat with false in Hr
    by (symmetry; apply Nat.ltb_ge; exact Hcols).
  cbn [orb] in Hr. injection Hr as <-.
  unfold gray_empty in He. apply orb_false_iff in He.
  destruct He as (He1 & He2).
  apply Nat.eqb_neq in He1, He2.
  match type of Hp with
  | _ = center (best_loc ?r) _ =>
      destruct (minMaxLoc_greatest r) as (_ & Hx & Hy & _);
        [simpl; lia | simpl; lia |];
        destruct (best_loc r) as [bx by_]
  end.
  cbn [r_cols r_rows fst snd] in Hx, Hy.
  unfold center in Hp. cbn [fst snd] in Hp. injection Hp as -> ->.
  assert (Hw : (0 <= Z.of_nat (cols t) / 2 < Z.of_nat (cols t))%Z).
  { split; [apply Z.div_pos; lia | apply Z.div_lt_upper_bound; lia]. }
  assert (Hh : (0 <= Z.of_nat (rows t) / 2 < Z.of_nat (rows t))%Z).
  { split; [apply Z.div_pos; lia | apply Z.div_lt_upper_bound; lia]. }
  lia.
Qed.

Lemma find_template_within_screen_witness :
  fst (find_template Scene.calm Scene.desk "button.png" 0.6 Scene.start)
    = Ret (Some (4, 2)%Z) /\
  (0 <= 4 < Z.of_nat (width Scene.desk))%Z /\
  (0 <= 2 < Z.of_nat (height Scene.desk))%Z.
Proof.
  split; [vm_compute; reflexivity |].
  apply (@find_template_within_screen Scene.calm Scene.desk "button.png" 0.6
           Scene.start Scene.button 4 2).
  - reflexivity.
  - simpl. lia.
  - simpl. lia.
  - vm_compute. reflexivity.
Defined.

(** C9.  The default of [threshold] is 0.6 in [find_template] and 0.7 in
    [find_button], which [auto_click] relies on when it is given no
    threshold.  On a screen that scores 0.65 everywhere the first finds
    the template with its default and the second does not. *)
Theorem default_thresholds_differ :
  find_template_threshold = 0.6 /\
  find_button_threshold = 0.7 /\
  ~ find_template_threshold == find_button_threshold /\
  given (kw_threshold no_kwargs) find_button_threshold = 0.7 /\
  fst (find_template Scene.tepid Scene.desk "button.png"
         find_template_threshold Scene.start) = Ret (Some (1, 1)%Z) /\
  fst (find_button Scene.tepid "button.png" find_button_max_attempts
         find_button_interval find_button_threshold Scene.start) = Ret None.
Proof.
  split; [reflexivity |].
  split; [reflexivity |].
  split; [vm_compute; discriminate |].
  split; [reflexivity |].
  split; vm_compute; reflexivity.
Qed.

(** C10, as OpenCV has it.  A template that loads and exceeds the screen
    in one direction while it is smaller in the other fails the size check
    of [cv2.matchTemplate]; [find_template] catches the error and returns
    [None]. *)
Theorem find_template_mismatched_sizes (E : env) (screenshot : ndarray)
    (path : string) (threshold : Q) (st : state) (t : gray) :
  files st path = Some t ->
  ((height screenshot < rows t)%nat /\ (cols t < width screenshot)%nat) \/
  ((width screenshot < cols t)%nat /\ (rows t < height screenshot)%nat) ->
  fst (find_template E screenshot path threshold st) = Ret None.
Proof.
  intros Hf Hsize.
  rewrite find_template_run. cbn [fst]. f_equal.
  destruct (located E (files st) screenshot path threshold) as [p |] eqn:Hloc;
    [| reflexivity].
  exfalso.
  apply located_Some_inv in Hloc.
  destruct Hloc as (t' & g & r & Hf' & _ & Hg & Hr & _).
  rewrite Hf in Hf'. injection Hf' as <-.
  unfold cvtColor_BGR2GRAY in Hg.
  destruct (color_input screenshot); [| discriminate].
  injection Hg as <-.
  unfold matchTemplate, needswap, swap_allowed in Hr. cbn [rows cols] in Hr.
  destruct Hsize as [(H1 & H2) | (H1 & H2)].
  - replace (height screenshot <? rows t)%nat with true in Hr
      by (symmetry; apply Nat.ltb_lt; exact H1).
    replace (width screenshot <=? cols t)%nat with false in Hr
      by (symmetry; apply Nat.leb_gt; exact H2).
    rewrite andb_false_r in Hr. discriminate.
  - replace (width screenshot <? cols t)%nat with true in Hr
      by (symmetry; apply Nat.ltb_lt; exact H1).
    replace (height screenshot <=? rows t)%nat with false in Hr
      by (symmetry; apply Nat.leb_gt; exact H2).
    rewrite orb_true_r in Hr. cbn [andb] in Hr. discriminate.
Qed.

Lemma find_template_mismatched_sizes_witness :
  ((height Scene.desk < rows (Scene.patch 1 8 200))%nat
   \/ (width Scene.desk < cols (Scene.patch 1 8 200))%nat) /\
  fst (find_template Scene.calm Scene.desk "banner.png" 0.6 Scene.start)
    = Ret None.
Proof.
  split; [right; simpl; lia |].
  apply (@find_template_mismatched_sizes Scene.calm Scene.desk "banner.png" 0.6
           Scene.start (Scene.patch 1 8 200)).
  - reflexivity.
  - right. simpl. split; lia.
Defined.

(** C10, as stated, fails: the template is larger than the screen in both
    directions, OpenCV searches the template for the screen, and
    [find_template] returns a position. *)
Lemma find_template_oversized_template_found :
  (height (Scene.solid 1 1 200) < rows (Scene.patch 3 3 200))%nat /\
  (width (Scene.solid 1 1 200) < cols (Scene.patch 3 3 200))%nat /\
  Scene.disk "poster.png" = Some (Scene.patch 3 3 200) /\
  fst (find_template Scene.tiny (Scene.solid 1 1 200) "poster.png" 0.6
         Scene.start) = Ret (Some (1, 1)%Z) /\
  fst (find_template Scene.tiny (Scene.solid 1 1 200) "poster.png" 0.6
         Scene.start) <> Ret None.
Proof.
  split; [simpl; lia |].
  split; [simpl; lia |].
  split; [reflexivity |].
  split; [vm_compute; reflexivity |].
  vm_compute. discriminate.
Qed.



(** * Further properties of the script *)

(** ** Capture *)

(** X1.  When the grab of the screen raises, [capture_screen] raises the
    very same exception after that one call to the display; it writes one
    ERROR record if the exception is an [Exception] and none if it is an
    interrupt. *)
Theorem capture_screen_reraises (E : env) (st : state) (e : exn) :
  display E (shots st) = Raise e ->
  capture_screen E st =
    (Raise e,
     mk_state (files st) (S (shots st)) (reads st) (moves st) (clicks st)
       (trace st ++ Screenshot
          :: (if is_Exception e then [Log ERROR (CaptureFailed e)] else []))).
Proof.
  intros Hd. rewrite capture_screen_run. unfold shot. rewrite Hd.
  reflexivity.
Qed.

Lemma capture_screen_reraises_witness :
  capture_screen Stage.dark Scene.start =
    (Raise OSError,
     mk_state Scene.disk 1 0 0 0
       [Screenshot; Log ERROR (CaptureFailed OSError)]).
Proof.
  apply (@capture_screen_reraises Stage.dark Scene.start OSError).
  reflexivity.
Defined.

(** ** Template matcher: what goes wrong inside stays inside *)

(** X2.  [find_template] never raises: whatever the screenshot, the path
    and the files, it returns a position or [None], after exactly one
    [cv2.imread] and without a capture, a move or a click; the files are
    as before. *)
Theorem find_template_absorbs_faults (E : env) (screenshot : ndarray)
    (path : string) (threshold : Q) (st : state) :
  exists position st',
    find_template E screenshot path threshold st = (Ret position, st') /\
    advanced st st' 0 1.
Proof.
  do 2 eexists. split; [apply find_template_run |].
  unfold advanced. simpl. repeat split; lia.
Qed.

(** X3.  With a template that cannot be loaded, [find_template] returns
    [None] whatever the screenshot shows, and the only record it writes is
    the ERROR that carries the [ImageNotFoundError] for that path. *)
Theorem find_template_missing_template (E : env) (screenshot : ndarray)
    (path : string) (threshold : Q) (st : state) :
  unloadable (files st) path ->
  find_template E screenshot path threshold st =
    (Ret None,
     mk_state (files st) (shots st) (S (reads st)) (moves st) (clicks st)
       (trace st ++ [Imread path;
                     Log ERROR (TemplateMatchException
                                  (ImageNotFoundError path))])).
Proof.
  unfold unloadable, find_template, cv2_imread. run.
  destruct (files st path) as [g |]; simpl.
  - intros ->. simpl. rewrite <- app_assoc. reflexivity.
  - intros _. rewrite <- app_assoc. reflexivity.
Qed.

Lemma find_template_missing_template_witness :
  find_template Scene.calm Scene.desk "missing.png" 0.6 Scene.start =
    (Ret None,
     mk_state Scene.disk 0 1 0 0
       [Imread "missing.png";
        Log ERROR (TemplateMatchException (ImageNotFoundError "missing.png"))]).
Proof.
  apply (@find_template_missing_template Scene.calm Scene.desk "missing.png"
           0.6 Scene.start).
  exact I.
Defined.

(** X4.  [find_template] needs a colour screenshot.  Given an array that
    is empty or has neither three nor four channels, a grey one for
    instance, it returns [None] although the template loads, and writes
    the ERROR record of the [cv2.error]. *)
Theorem find_template_needs_colour (E : env) (screenshot : ndarray)
    (path : string) (threshold : Q) (st : state) (t : gray) :
  files st path = Some t -> gray_empty t = false ->
  color_input screenshot = false ->
  find_template E screenshot path threshold st =
    (Ret None,
     mk_state (files st) (shots st) (S (reads st)) (moves st) (clicks st)
       (trace st ++ [Imread path;
                     Log ERROR (TemplateMatchException cv2_error)])).
Proof.
  intros Hf He Hc.
  unfold find_template, cv2_imread, cvtColor_BGR2GRAY. run.
  rewrite Hf, He. simpl. rewrite Hc. simpl.
  rewrite <- app_assoc. reflexivity.
Qed.

Lemma find_template_needs_colour_witness :
  find_template Scene.calm Stage.grey_shot "button.png" 0.6 Scene.start =
    (Ret None,
     mk_state Scene.disk 0 1 0 0
       [Imread "button.png"; Log ERROR (TemplateMatchException cv2_error)]).
Proof.
  apply (@find_template_needs_colour Scene.calm Stage.grey_shot "button.png"
           0.6 Scene.start Scene.button); reflexivity.
Defined.

(** ** Retrying locator: the edges *)

(** X5.  With [max_attempts] zero or negative the loop of [find_button]
    has no turn: no capture, no match, no pause; it writes the ERROR record
    of the exhausted attempts and returns [None]. *)
Theorem find_button_no_attempts (E : env) (path : string) (max_attempts : Z)
    (interval threshold : Q) (st : state) :
  (max_attempts <= 0)%Z ->
  find_button E path max_attempts interval threshold st =
    (Ret None,
     mk_state (files st) (shots st) (reads st) (moves st) (clicks st)
       (trace st ++ [Log ERROR (AttemptsExceeded path)])).
Proof.
  intros Hmax. unfold find_button, range.
  replace (Z.to_nat (max_attempts + 1 - 1)) with 0%nat by lia.
  reflexivity.
Qed.

Lemma find_button_no_attempts_witness :
  find_button Scene.calm "button.png" 0 1 0.7 Scene.start =
    (Ret None,
     mk_state Scene.disk 0 0 0 0 [Log ERROR (AttemptsExceeded "button.png")]).
Proof.
  apply (@find_button_no_attempts Scene.calm "button.png" 0 1 0.7 Scene.start).
  lia.
Defined.

Lemma range_cons (lo hi : Z) :
  (lo < hi)%Z -> range lo hi = lo :: range (lo + 1) hi.
Proof.
  intros Hlt. unfold range.
  replace (Z.to_nat (hi - lo)) with (S (Z.to_nat (hi - (lo + 1)))) by lia.
  cbn [seq map]. f_equal; [lia |].
  rewrite <- seq_shift, map_map.
  apply map_ext. intros i. lia.
Qed.

Lemma sleeps_of_app (a b : list event) :
  sleeps_of (a ++ b) = sleeps_of a ++ sleeps_of b.
Proof.
  induction a as [| ev a IH]; [reflexivity |].
  destruct ev; simpl; rewrite IH; reflexivity.
Qed.

Lemma located_trace_no_sleep (E : env) (fs : string -> option gray)
    (screenshot : ndarray) (path : string) (threshold : Q) :
  sleeps_of (located_trace E fs screenshot path threshold) = [].
Proof.
  unfold located_trace, find_template, cv2_imread, initial. run.
  destruct (fs path) as [t |]; simpl; [| reflexivity].
  destruct (gray_empty t); simpl; [reflexivity |].
  unfold cvtColor_BGR2GRAY.
  destruct (color_input screenshot); simpl; [| reflexivity].
  unfold matchTemplate.
  destruct (needswap _ t); [destruct (swap_allowed _ t) |]; simpl;
    try reflexivity;
    match goal with
    | |- context [minMaxLoc ?r] =>
        destruct (minMaxLoc r) as [[[mn mx] mnl] mxl]
    end;
    destruct (Qltb mx threshold); simpl; reflexivity.
Qed.

Section Edges.

Variable E : env.
Variables (path : string) (max_attempts : Z) (interval threshold : Q).

(** A turn that misses, with what it adds to the trace. *)
Lemma attempt_miss_pause (attempt : Z) (st : state) :
  misses E (files st) path threshold (shots st) ->
  sleepable E interval ->
  exists st' delta,
    find_button_attempt E path max_attempts interval threshold attempt st
      = (Ret Continue, st') /\
    advanced st st' 1 1 /\
    trace st' = trace st ++ delta /\
    sleeps_of delta = if (attempt <? max_attempts)%Z then [interval] else [].
Proof.
  intros (s & Hs & Hl) Hi.
  unfold find_button_attempt, try_except, bind.
  rewrite capture_screen_run, Hs, find_template_run. simpl.
  rewrite Hl. run.
  destruct (attempt <? max_attempts)%Z.
  - rewrite time_sleep_ok by assumption. simpl.
    do 2 eexists. split; [reflexivity |].
    split; [unfold advanced; simpl; repeat split; lia |].
    split.
    + simpl. rewrite <- !app_assoc. reflexivity.
    + simpl. rewrite sleeps_of_app, located_trace_no_sleep. reflexivity.
  - do 2 eexists. split; [reflexivity |].
    split; [unfold advanced; simpl; repeat split; lia |].
    split.
    + simpl. rewrite <- !app_assoc. reflexivity.
    + simpl. rewrite sleeps_of_app, located_trace_no_sleep. reflexivity.
Qed.

Lemma loop_pauses (n : nat) :
  forall (lo : Z) (st : state),
    (lo + Z.of_nat n = max_attempts + 1)%Z ->
    (forall i, (i < n)%nat ->
       misses E (files st) path threshold (shots st + i)) ->
    sleepable E interval ->
    exists st' delta,
      find_button_loop E path max_attempts interval threshold
        (range lo (max_attempts + 1)) st = (Ret None, st') /\
      trace st' = trace st ++ delta /\
      sleeps_of delta = repeat interval (n - 1).
Proof.
  induction n as [| n IH]; intros lo st Hlo Hmiss Hi.
  - unfold range. replace (Z.to_nat (max_attempts + 1 - lo)) with 0%nat by lia.
    simpl. unfold find_button_give_up. run.
    do 2 eexists. split; [reflexivity |]. split; reflexivity.
  - rewrite range_cons by lia. cbn [find_button_loop]. unfold bind.
    destruct (@attempt_miss_pause lo st) as (st1 & d1 & Hrun & Hadv & Ht & Hsl).
    { rewrite <- (Nat.add_0_r (shots st)). apply Hmiss. lia. }
    { exact Hi. }
    rewrite Hrun.
    destruct (IH (lo + 1)%Z st1) as (st2 & d2 & Hloop & Ht2 & Hsl2).
    { lia. }
    { intros i Hlt. destruct Hadv as (Hf & Hs & _). rewrite Hf, Hs.
      replace (shots st + 1 + i)%nat with (shots st + S i)%nat by lia.
      apply Hmiss. lia. }
    { exact Hi. }
    exists st2, (d1 ++ d2). split; [exact Hloop |].
    split; [rewrite Ht2, Ht, app_assoc; reflexivity |].
    rewrite sleeps_of_app, Hsl, Hsl2.
    destruct n as [| n].
    + replace (lo <? max_attempts)%Z with false
        by (symmetry; apply Z.ltb_ge; lia).
      reflexivity.
    + replace (lo <? max_attempts)%Z with true
        by (symmetry; apply Z.ltb_lt; lia).
      simpl. rewrite Nat.sub_0_r. reflexivity.
Qed.

(** A turn whose capture is interrupted. *)
Lemma attempt_interrupt (attempt : Z) (st : state) (e : exn) :
  shot E (shots st) = Raise e ->
  is_Exception e = false ->
  exists st',
    find_button_attempt E path max_attempts interval threshold attempt st
      = (Raise e, st') /\
    advanced st st' 1 0.
Proof.
  intros Hs He.
  unfold find_button_attempt, try_except, bind.
  rewrite capture_screen_run, Hs, He.
  eexists. split; [reflexivity |].
  unfold advanced; simpl. repeat split; lia.
Qed.

(** What a turn that returns a position has seen. *)
Lemma attempt_inv (attempt : Z) (st st' : state) (o : outcome turn) :
  find_button_attempt E path max_attempts interval threshold attempt st
    = (o, st') ->
  files st' = files st /\ shots st' = S (shots st) /\
  forall position, o = Ret (Return position) ->
    hits E (files st) path threshold (shots st) position.
Proof.
  unfold find_button_attempt, try_except, bind.
  rewrite capture_screen_run.
  destruct (shot E (shots st)) as [s | e] eqn:Hs.
  - rewrite find_template_run. simpl.
    destruct (located E (files st) s path threshold) as [pos |] eqn:Hl; run.
    + intros [= <- <-]. simpl. repeat split.
      intros position [= <-]. exists s. split; assumption.
    + destruct (attempt <? max_attempts)%Z.
      * unfold time_sleep.
        destruct (time_sleep_fault E interval) as [e |]; run;
          [destruct (is_Exception e); run |];
          intros [= <- <-]; simpl; repeat split; intros position; discriminate.
      * intros [= <- <-]. simpl. repeat split. intros position; discriminate.
  - destruct (is_Exception e); run; intros [= <- <-]; simpl; repeat split;
      intros position; discriminate.
Qed.

Lemma loop_inv (attempts : list Z) :
  forall (st st' : state) (position : point),
    find_button_loop E path max_attempts interval threshold attempts st
      = (Ret (Some position), st') ->
    exists k,
      (k < List.length attempts)%nat /\
      hits E (files st) path threshold (shots st + k) position /\
      shots st' = (shots st + k + 1)%nat.
Proof.
  induction attempts as [| attempt later IH]; intros st st' position.
  - simpl. unfold find_button_give_up. run. discriminate.
  - cbn [find_button_loop]. unfold bind.
    destruct (find_button_attempt E path max_attempts interval threshold
                attempt st) as [o st1] eqn:Hrun.
    destruct (attempt_inv _ _ Hrun) as (Hf & Hs & Hhit).
    destruct o as [[p | |] | e].
    + unfold ret. intros [= <- <-]. exists 0%nat. simpl.
      split; [lia |]. rewrite Nat.add_0_r.
      split; [apply Hhit; reflexivity | lia].
    + intros Hloop. destruct (IH _ _ _ Hloop) as (k & Hk & Hh & Hsh).
      exists (S k). simpl. split; [lia |].
      rewrite Hf, Hs in Hh. rewrite Hs in Hsh.
      replace (shots st + S k)%nat with (S (shots st) + k)%nat by lia.
      split; [exact Hh | lia].
    + unfold find_button_give_up. run. discriminate.
    + discriminate.
Qed.

End Edges.

(** X6.  A negative interval cuts the retries short.  With at least two
    attempts allowed and a first turn that misses, the pause after that
    turn raises [ValueError], the handler of the loop breaks out, and
    [find_button] returns [None] after this single capture and match. *)
Theorem find_button_negative_interval (E : env) (path : string)
    (max_attempts : Z) (interval threshold : Q) (st : state) :
  interval < 0 ->
  (2 <= max_attempts)%Z ->
  misses E (files st) path threshold (shots st) ->
  exists st',
    find_button E path max_attempts interval threshold st = (Ret None, st') /\
    advanced st st' 1 1.
Proof.
  intros Hneg Hmax (s & Hs & Hl).
  unfold find_button. rewrite range_cons by lia.
  cbn [find_button_loop]. unfold bind at 1.
  unfold find_button_attempt, try_except, bind.
  rewrite capture_screen_run, Hs, find_template_run. simpl.
  rewrite Hl. run.
  replace (1 <? max_attempts)%Z with true by (symmetry; apply Z.ltb_lt; lia).
  rewrite time_sleep_negative by assumption.
  unfold find_button_give_up. run.
  eexists. split; [reflexivity |].
  unfold advanced; simpl. repeat split; lia.
Qed.

Lemma find_button_negative_interval_witness :
  exists st',
    find_button Scene.bare "button.png" 3 (-1) 0.7 Scene.start
      = (Ret None, st') /\
    advanced Scene.start st' 1 1.
Proof.
  apply (@find_button_negative_interval Scene.bare "button.png" 3 (-1) 0.7
           Scene.start).
  - reflexivity.
  - lia.
  - eexists; split; [reflexivity | vm_compute; reflexivity].
Defined.

(** A length that [time.sleep] refuses with an [Exception], a negative one
    or one beyond [sleep_overflow], ends the retries in the same way after
    the first miss. *)
Lemma find_button_refused_interval (E : env) (path : string)
    (max_attempts : Z) (interval threshold : Q) (st : state) (e : exn) :
  time_sleep_fault E interval = Some e ->
  is_Exception e = true ->
  (2 <= max_attempts)%Z ->
  misses E (files st) path threshold (shots st) ->
  exists st',
    find_button E path max_attempts interval threshold st = (Ret None, st') /\
    advanced st st' 1 1.
Proof.
  intros Hf He Hmax (s & Hs & Hl).
  unfold find_button. rewrite range_cons by lia.
  cbn [find_button_loop]. unfold bind at 1.
  unfold find_button_attempt, try_except, bind.
  rewrite capture_screen_run, Hs, find_template_run. simpl.
  rewrite Hl. run.
  replace (1 <? max_attempts)%Z with true by (symmetry; apply Z.ltb_lt; lia).
  unfold time_sleep. rewrite Hf. unfold raise. rewrite He.
  unfold find_button_give_up. run.
  eexists. split; [reflexivity |].
  unfold advanced; simpl. repeat split; lia.
Qed.

Lemma find_button_overlong_interval :
  exists st',
    find_button Scene.bare "button.png" 3 10000000000 0.7 Scene.start
      = (Ret None, st') /\
    advanced Scene.start st' 1 1.
Proof.
  apply (@find_button_refused_interval Scene.bare "button.png" 3 10000000000
           0.7 Scene.start OverflowError).
  - reflexivity.
  - reflexivity.
  - lia.
  - eexists; split; [reflexivity | vm_compute; reflexivity].
Qed.

(** X7.  [find_button] pauses between attempts and not after the last.
    When every turn misses and the interval is a length that [time.sleep]
    takes, not negative and not too long, the run has exactly
    [max_attempts - 1] pauses, each of the length [interval]. *)
Theorem find_button_pauses_between_attempts (E : env) (path : string)
    (max_attempts : Z) (interval threshold : Q) (st : state) :
  sleepable E interval ->
  (forall i, (i < Z.to_nat max_attempts)%nat ->
     misses E (files st) path threshold (shots st + i)) ->
  exists st' delta,
    find_button E path max_attempts interval threshold st = (Ret None, st') /\
    trace st' = trace st ++ delta /\
    sleeps_of delta = repeat interval (Z.to_nat max_attempts - 1).
Proof.
  intros Hi Hmiss. unfold find_button.
  destruct (Z.le_gt_cases 0 max_attempts) as [Hpos | Hneg].
  - apply (@loop_pauses E path max_attempts interval threshold
             (Z.to_nat max_attempts) 1 st); [lia | exact Hmiss | exact Hi].
  - unfold range.
    replace (Z.to_nat (max_attempts + 1 - 1)) with 0%nat by lia.
    replace (Z.to_nat max_attempts) with 0%nat by lia.
    simpl. unfold find_button_give_up. run.
    do 2 eexists. split; [reflexivity |]. split; reflexivity.
Qed.

Lemma find_button_pauses_between_attempts_witness :
  exists st' delta,
    find_button Scene.bare "button.png" 3 0.5 0.7 Scene.start
      = (Ret None, st') /\
    trace st' = trace Scene.start ++ delta /\
    sleeps_of delta = [0.5; 0.5].
Proof.
  apply (@find_button_pauses_between_attempts Scene.bare "button.png" 3 0.5
           0.7 Scene.start).
  - reflexivity.
  - intros i Hlt.
    destruct i as [| [| [| i]]]; [| | | simpl in Hlt; lia];
      (eexists; split; [reflexivity | vm_compute; reflexivity]).
Defined.

(** X8.  An interrupt during a capture is not taken for a failed attempt:
    when the capture of turn [k] raises an exception that is not an
    [Exception], [find_button] raises it to its caller, after [k] captures
    and [k - 1] matches, instead of returning [None].  The turns before
    it miss, and the interval is a length that [time.sleep] takes, not
    negative and not too long. *)
Theorem find_button_interrupt_propagates (E : env) (path : string)
    (max_attempts : Z) (interval threshold : Q) (st : state) (k : nat)
    (e : exn) :
  sleepable E interval ->
  (1 <= k)%nat -> (Z.of_nat k <= max_attempts)%Z ->
  (forall i, (i < k - 1)%nat ->
     misses E (files st) path threshold (shots st + i)) ->
  shot E (shots st + (k - 1)) = Raise e ->
  is_Exception e = false ->
  exists st',
    find_button E path max_attempts interval threshold st = (Raise e, st') /\
    advanced st st' k (k - 1).
Proof.
  intros Hi Hk Hmax Hmiss Hshot He. unfold find_button.
  destruct (@range_split 1 (max_attempts + 1) (k - 1))
    as (pre & post & Hrange & Hlen); [lia |].
  rewrite Hrange.
  destruct (@loop_skip E path max_attempts interval threshold pre
              ((1 + Z.of_nat (k - 1))%Z :: post) st)
    as (st1 & Hadv & Hloop).
  { rewrite Hlen. exact Hmiss. }
  { exact Hi. }
  rewrite Hloop, Hlen in *. clear Hloop.
  destruct (@attempt_interrupt E path max_attempts interval threshold
              (1 + Z.of_nat (k - 1))%Z st1 e)
    as (st2 & Hrun & Hadv2).
  { destruct Hadv as (_ & Hs & _). rewrite Hs. exact Hshot. }
  { exact He. }
  cbn [find_button_loop]. unfold bind. rewrite Hrun.
  exists st2. split; [reflexivity |].
  apply (advanced_eq (advanced_trans Hadv Hadv2)); lia.
Qed.

Lemma find_button_interrupt_propagates_witness :
  exists st',
    find_button Stage.impatient "button.png" 3 0 0.7 Scene.start
      = (Raise KeyboardInterrupt, st') /\
    advanced Scene.start st' 2 1.
Proof.
  apply (@find_button_interrupt_propagates Stage.impatient "button.png" 3 0
           0.7 Scene.start 2 KeyboardInterrupt).
  - reflexivity.
  - lia.
  - lia.
  - intros i Hlt.
    destruct i as [| i]; [| simpl in Hlt; lia].
    eexists; split; [reflexivity | vm_compute; reflexivity].
  - reflexivity.
  - reflexivity.
Defined.

(** X9.  Whatever the display, the files and the arguments, [find_button]
    makes at most [max_attempts] captures and never more matches than
    captures, leaves the files and the pointer alone, and lets no
    [Exception] out. *)
Theorem find_button_bounded (E : env) (path : string) (max_attempts : Z)
    (interval threshold : Q) (st : state) :
  exists o st' dshots dreads,
    find_button E path max_attempts interval threshold st = (o, st') /\
    only_interrupts o /\
    (dshots <= Z.to_nat max_attempts)%nat /\ (dreads <= dshots)%nat /\
    advanced st st' dshots dreads.
Proof.
  destruct (find_button_frame E path max_attempts interval threshold st)
    as (o & st' & Hrun & Hint & ds & dr & H1 & H2 & Hadv).
  exists o, st', ds, dr. repeat split; try assumption; apply Hadv.
Qed.

Lemma find_button_hit_inv (E : env) (path : string) (max_attempts : Z)
    (interval threshold : Q) (st st' : state) (position : point) :
  find_button E path max_attempts interval threshold st
    = (Ret (Some position), st') ->
  exists k,
    (k < Z.to_nat max_attempts)%nat /\
    hits E (files st) path threshold (shots st + k) position /\
    shots st' = (shots st + k + 1)%nat.
Proof.
  unfold find_button. intros Hrun.
  apply loop_inv in Hrun. destruct Hrun as (k & Hk & Hhit & Hs).
  rewrite range_length in Hk.
  exists k. split; [lia |]. split; assumption.
Qed.

(** X10.  A position that [find_button] returns is one that
    [find_template] found in a capture of this very run, the last one
    made: there is a turn [k + 1], within [max_attempts], whose capture
    showed the template at that position, and the run ends with it. *)
Theorem find_button_returns_a_hit (E : env) (path : string)
    (max_attempts : Z) (interval threshold : Q) (st st' : state)
    (position : point) :
  find_button E path max_attempts interval threshold st
    = (Ret (Some position), st') ->
  exists k,
    (k < Z.to_nat max_attempts)%nat /\
    hits E (files st) path threshold (shots st + k) position /\
    shots st' = (shots st + k + 1)%nat.
Proof. apply find_button_hit_inv. Qed.

Lemma find_button_returns_a_hit_witness :
  exists k,
    (k < Z.to_nat 3)%nat /\
    hits Scene.late (files Scene.start) "button.png" 0.7
      (shots Scene.start + k) (4, 2)%Z /\
    shots (snd (find_button Scene.late "button.png" 3 0 0.7 Scene.start))
      = (shots Scene.start + k + 1)%nat.
Proof.
  apply (@find_button_returns_a_hit Scene.late "button.png" 3 0 0.7
           Scene.start).
  vm_compute. reflexivity.
Defined.

(** ** Pointer: the edges *)

Section PointerEdges.

Variable E : env.

Lemma click_loop_fault (interval : Q) (e : exn) (xs : list Z) :
  forall (k : nat) (st : state),
    (k < List.length xs)%nat ->
    (forall i, (i < k)%nat -> click_fault E (clicks st + i) = None) ->
    click_fault E (clicks st + k) = Some e ->
    sleepable E interval ->
    for_each xs (fun _ => pyautogui_click E ;;; time_sleep E interval) st =
      (Raise e,
       mk_state (files st) (shots st) (reads st) (moves st)
         (clicks st + k + 1)
         (trace st ++ pulses interval k ++ [Click])).
Proof.
  induction xs as [| x xs IH]; intros k st Hk Hok Hbad Hi.
  - simpl in Hk. lia.
  - cbn [for_each]. unfold bind at 1. unfold bind at 1.
    unfold pyautogui_click at 1.
    destruct k as [| k].
    + rewrite Nat.add_0_r in Hbad. rewrite Hbad. simpl.
      f_equal. f_equal. lia.
    + rewrite <- (Nat.add_0_r (clicks st)) at 1.
      rewrite (Hok 0%nat) by lia.
      rewrite time_sleep_ok by assumption.
      cbn [files shots reads moves clicks trace].
      rewrite (IH k); [| simpl in Hk; lia | | | assumption].
      * cbn [files shots reads moves clicks trace pulses].
        rewrite <- !app_assoc. simpl. f_equal. f_equal. lia.
      * intros i Hlt. cbn [clicks].
        replace (S (clicks st) + i)%nat with (clicks st + S i)%nat by lia.
        apply Hok. lia.
      * cbn [clicks].
        replace (S (clicks st) + k)%nat with (clicks st + S k)%nat by lia.
        exact Hbad.
Qed.

End PointerEdges.

(** X11.  With [clicks] zero or negative, [click_position] moves the
    pointer and makes no click and no pause; it still writes the INFO
    record of a click carried out. *)
Theorem click_position_without_clicks (E : env) (x y count : Z)
    (move_duration interval : Q) (st : state) :
  (count <= 0)%Z ->
  move_fault E (moves st) = None ->
  click_position E (x, y) count move_duration interval st =
    (Ret tt,
     mk_state (files st) (shots st) (reads st) (S (moves st)) (clicks st)
       (trace st ++ [MoveTo x y move_duration; Log INFO (Clicked x y)])).
Proof.
  intros Hcount Hmove.
  unfold click_position, try_except, bind, pyautogui_moveTo.
  rewrite Hmove. unfold range0, range.
  replace (Z.to_nat (count - 0)) with 0%nat by lia.
  run. rewrite <- app_assoc. reflexivity.
Qed.

Lemma click_position_without_clicks_witness :
  click_position Scene.calm (5, 5)%Z 0 0.3 0.2 Scene.start =
    (Ret tt,
     mk_state Scene.disk 0 0 1 0 [MoveTo 5 5 0.3; Log INFO (Clicked 5 5)]).
Proof.
  apply (@click_position_without_clicks Scene.calm 5 5 0 0.3 0.2 Scene.start).
  - lia.
  - reflexivity.
Defined.

(** X12.  A click that the pointer refuses ends the clicking.  When the
    move and the first [k] clicks go through and click [k + 1], one of the
    [clicks] asked for, raises an [Exception], [click_position] makes no
    further click, writes the ERROR record of the failure in place of the
    INFO record, and returns normally.  The interval is a length that
    [time.sleep] takes, not negative and not too long. *)
Theorem click_position_click_fault (E : env) (x y count : Z)
    (move_duration interval : Q) (st : state) (k : nat) (e : exn) :
  sleepable E interval ->
  (k < Z.to_nat count)%nat ->
  move_fault E (moves st) = None ->
  (forall i, (i < k)%nat -> click_fault E (clicks st + i) = None) ->
  click_fault E (clicks st + k) = Some e ->
  is_Exception e = true ->
  click_position E (x, y) count move_duration interval st =
    (Ret tt,
     mk_state (files st) (shots st) (reads st) (S (moves st))
       (clicks st + k + 1)
       (trace st ++ MoveTo x y move_duration
                 :: pulses interval k
                 ++ [Click; Log ERROR (ClickFailed e)])).
Proof.
  intros Hi Hk Hmove Hok Hbad He.
  unfold click_position, try_except, bind, pyautogui_moveTo.
  rewrite Hmove.
  match goal with
  | |- context [for_each (range0 count) ?b ?s] =>
      assert (Hloop := @click_loop_fault E interval e (range0 count) k s)
  end.
  rewrite range0_length in Hloop. unfold bind in Hloop.
  rewrite Hloop; [| exact Hk | exact Hok | exact Hbad | exact Hi].
  rewrite He. run. rewrite <- !app_assoc. reflexivity.
Qed.

Lemma click_position_click_fault_witness :
  click_position Stage.jammed (5, 5)%Z 3 0.3 0.2 Scene.start =
    (Ret tt,
     mk_state Scene.disk 0 0 1 2
       [MoveTo 5 5 0.3; Click; Sleep 0.2; Click;
        Log ERROR (ClickFailed FailSafeException)]).
Proof.
  apply (@click_position_click_fault Stage.jammed 5 5 3 0.3 0.2 Scene.start
           1 FailSafeException).
  - reflexivity.
  - simpl. lia.
  - reflexivity.
  - intros i Hlt. destruct i as [| i]; [reflexivity | lia].
  - reflexivity.
  - reflexivity.
Defined.



(** X14.  When the move itself raises an [Exception], [click_position]
    makes no click at all: it writes the ERROR record and returns. *)
Theorem click_position_move_fault (E : env) (x y count : Z)
    (move_duration interval : Q) (st : state) (e : exn) :
  move_fault E (moves st) = Some e ->
  is_Exception e = true ->
  click_position E (x, y) count move_duration interval st =
    (Ret tt,
     mk_state (files st) (shots st) (reads st) (S (moves st)) (clicks st)
       (trace st ++ [MoveTo x y move_duration; Log ERROR (ClickFailed e)])).
Proof.
  intros Hmove He.
  unfold click_position, try_except, bind, pyautogui_moveTo.
  rewrite Hmove, He. run. rewrite <- app_assoc. reflexivity.
Qed.

Lemma click_position_move_fault_witness :
  click_position Scene.stuck (5, 5)%Z 2 0.3 0.2 Scene.start =
    (Ret tt,
     mk_state Scene.disk 0 0 1 0
       [MoveTo 5 5 0.3; Log ERROR (ClickFailed FailSafeException)]).
Proof.
  apply (@click_position_move_fault Scene.stuck 5 5 2 0.3 0.2 Scene.start
           FailSafeException); reflexivity.
Defined.

(** ** Locate and click: what the answer tells *)

(** X15.  The boolean of [auto_click] tells which calls went to the
    pointer.  [False] is returned only when [find_button] found nothing,
    and then neither [moveTo] nor [click] was called.  [True] is returned
    only when a capture of this run showed the template, and then [moveTo]
    was called exactly once, for the position found there; whether the
    pointer obeyed the call, the boolean does not tell. *)
Theorem auto_click_answer (E : env) (path : string)
    (max_attempts click_times : Z) (success_delay : Q) (kwargs : find_kwargs)
    (st st' : state) (b : bool) :
  auto_click E path max_attempts click_times success_delay kwargs st
    = (Ret b, st') ->
  if b then
    exists k x y st1 rest,
      (k < Z.to_nat max_attempts)%nat /\
      hits E (files st) path
        (given (kw_threshold kwargs) find_button_threshold)
        (shots st + k) (x, y) /\
      find_button E path max_attempts
        (given (kw_interval kwargs) find_button_interval)
        (given (kw_threshold kwargs) find_button_threshold) st
        = (Ret (Some (x, y)), st1) /\
      trace st' = trace st1 ++ MoveTo x y click_position_move_duration :: rest /\
      moves st' = S (moves st)
  else
    fst (find_button E path max_attempts
           (given (kw_interval kwargs) find_button_interval)
           (given (kw_threshold kwargs) find_button_threshold) st) = Ret None /\
    moves st' = moves st /\ clicks st' = clicks st.
Proof.
  unfold auto_click, bind.
  destruct (find_button E path max_attempts
              (given (kw_interval kwargs) find_button_interval)
              (given (kw_threshold kwargs) find_button_threshold) st)
    as [o st1] eqn:Hfind.
  destruct (find_button_frame E path max_attempts
              (given (kw_interval kwargs) find_button_interval)
              (given (kw_threshold kwargs) find_button_threshold) st)
    as (o0 & st0 & Hrun0 & _ & ds & dr & _ & _ & Hadv).
  rewrite Hfind in Hrun0. injection Hrun0 as <- <-.
  destruct Hadv as (_ & _ & _ & Hmoves & Hclicks).
  destruct o as [[[x y] |] | e].
  - destruct (click_position_frame E x y click_times
                click_position_move_duration click_position_interval st1)
      as (o & st2 & rest & Hclick & _ & _ & _ & _ & Hm & _ & Ht).
    rewrite Hclick.
    destruct o as [[] | e]; [| discriminate].
    unfold time_sleep.
    destruct (time_sleep_fault E success_delay); run; [discriminate |].
    intros [= <- <-].
    pose proof Hfind as Hhit. apply find_button_hit_inv in Hhit.
    destruct Hhit as (k & Hk & Hhit & _).
    exists k, x, y, st1, (rest ++ [Sleep success_delay]).
    split; [exact Hk |]. split; [exact Hhit |]. split; [reflexivity |].
    simpl. rewrite Ht, Hm, Hmoves, <- app_assoc. split; reflexivity.
  - unfold ret. intros [= <- <-]. repeat split; assumption.
  - discriminate.
Qed.

Lemma auto_click_answer_witness :
  exists k x y st1 rest,
    (k < Z.to_nat 3)%nat /\
    hits Scene.late (files Scene.start) "button.png"
      (given (kw_threshold no_kwargs) find_button_threshold)
      (shots Scene.start + k) (x, y) /\
    find_button Scene.late "button.png" 3
      (given (kw_interval no_kwargs) find_button_interval)
      (given (kw_threshold no_kwargs) find_button_threshold) Scene.start
      = (Ret (Some (x, y)), st1) /\
    trace (snd (auto_click Scene.late "button.png" 3 1 1 no_kwargs Scene.start))
      = trace st1 ++ MoveTo x y click_position_move_duration :: rest /\
    moves (snd (auto_click Scene.late "button.png" 3 1 1 no_kwargs Scene.start))
      = S (moves Scene.start).
Proof.
  apply (@auto_click_answer Scene.late "button.png" 3 1 1 no_kwargs
           Scene.start _ true).
  vm_compute. reflexivity.
Defined.

(** ** Composition *)

Lemma bounded_ret {A} (a : A) : bounded 0 0 0 (ret a).
Proof. intros st. simpl. repeat split; lia. Qed.

Lemma bounded_weaken {A} (m : M A) (a b c a' b' c' : nat) :
  bounded a b c m ->
  (a <= a')%nat -> (b <= b')%nat -> (c <= c')%nat ->
  bounded a' b' c' m.
Proof.
  intros H Ha Hb Hc st.
  destruct (H st) as (H1 & H2 & H3 & H4 & H5).
  repeat split; try assumption; lia.
Qed.

Lemma bounded_bind {A B} (m : M A) (k : A -> M B) (a b c a' b' c' : nat) :
  bounded a b c m ->
  (forall x, bounded a' b' c' (k x)) ->
  bounded (a + a') (b + b') (c + c') (bind m k).
Proof.
  intros Hm Hk st. unfold bind.
  destruct (Hm st) as (H1 & H2 & H3 & H4 & H5).
  destruct (m st) as [[x | e] st1]; simpl in *.
  - destruct (Hk x st1) as (K1 & K2 & K3 & K4 & K5).
    split; [exact K1 |]. split; [congruence |].
    repeat split; lia.
  - split; [exact H1 |]. split; [exact H2 |]. repeat split; lia.
Qed.

Lemma bounded_if {A} (cond : bool) (m1 m2 : M A) (a b c : nat) :
  bounded a b c m1 -> bounded a b c m2 ->
  bounded a b c (if cond then m1 else m2).
Proof. destruct cond; intros; assumption. Qed.

Lemma bounded_sleep (E : env) (secs : Q) :
  sleepable E secs -> bounded 0 0 0 (time_sleep E secs).
Proof.
  intros H st. rewrite time_sleep_ok by assumption. simpl.
  repeat split; lia.
Qed.

Lemma bounded_find_button (E : env) (path : string) (max_attempts : Z)
    (interval threshold : Q) :
  bounded (Z.to_nat max_attempts) 0 0
    (find_button E path max_attempts interval threshold).
Proof.
  intros st.
  destruct (find_button_frame E path max_attempts interval threshold st)
    as (o & st' & Hrun & Hint & ds & dr & H1 & _ & Hf & Hs & _ & Hm & Hc).
  rewrite Hrun. simpl. repeat split; try assumption; lia.
Qed.

Lemma bounded_click_position (E : env) (position : point) (count : Z)
    (move_duration interval : Q) :
  bounded 0 1 (Z.to_nat count)
    (click_position E position count move_duration interval).
Proof.
  intros st. destruct position as [x y].
  destruct (click_position_frame E x y count move_duration interval st)
    as (o & st' & rest & Hrun & Hint & Hf & Hs & _ & Hm & Hc & _).
  rewrite Hrun. simpl. repeat split; try assumption; lia.
Qed.

(** X16.  With a settle delay that [time.sleep] takes, not negative and
    not too long, one [auto_click] lets nothing but an interrupt out,
    leaves the files alone, and makes at most [max_attempts] captures, one
    call of [moveTo] and [click_times] calls of [click]. *)
Theorem auto_click_bounded (E : env) (path : string)
    (max_attempts click_times : Z) (success_delay : Q) (kwargs : find_kwargs) :
  sleepable E success_delay ->
  bounded (Z.to_nat max_attempts) 1 (Z.to_nat click_times)
    (auto_click E path max_attempts click_times success_delay kwargs).
Proof.
  intros Hd. unfold auto_click.
  eapply bounded_weaken.
  - apply bounded_bind; [apply bounded_find_button |].
    intros [position |].
    + apply bounded_bind; [apply bounded_click_position |].
      intros _. apply bounded_bind; [apply bounded_sleep; exact Hd |].
      intros _. apply bounded_ret.
    + eapply bounded_weaken; [apply bounded_ret | apply Nat.le_0_l ..].
  - lia.
  - lia.
  - lia.
Qed.

Lemma auto_click_bounded_witness :
  bounded (Z.to_nat 3) 1 (Z.to_nat 2)
    (auto_click Scene.calm "button.png" 3 2 1 no_kwargs).
Proof.
  apply (@auto_click_bounded Scene.calm "button.png" 3 2 1 no_kwargs).
  reflexivity.
Defined.

Lemma bounded_auto_click_defaults (E : env) (path : string) :
  bounded 3 1 1 (auto_click_defaults E path).
Proof.
  unfold auto_click_defaults.
  apply (@bounded_weaken _ _ (Z.to_nat auto_click_max_attempts) 1%nat
           (Z.to_nat auto_click_click_times)).
  - eapply bounded_weaken.
    + apply bounded_bind; [apply bounded_find_button |].
      intros [position |].
      * apply bounded_bind; [apply bounded_click_position |].
        intros _. apply bounded_bind;
          [apply bounded_sleep; reflexivity |].
        intros _. apply bounded_ret.
      * eapply bounded_weaken; [apply bounded_ret | apply Nat.le_0_l ..].
    + lia.
    + lia.
    + lia.
  - vm_compute. lia.
  - lia.
  - vm_compute. lia.
Qed.

Lemma bounded_job_flow (E : env) (job_number : Z) :
  bounded 12 4 4 (job_flow E job_number).
Proof.
  unfold job_flow.
  apply (@bounded_bind _ _ _ _ 3 1 1 9 3 3);
    [apply bounded_auto_click_defaults |].
  intros selected. apply bounded_if.
  - eapply bounded_weaken; [apply bounded_ret | lia ..].
  - apply (@bounded_bind _ _ _ _ 3 1 1 6 2 2); [apply bounded_auto_click_defaults |].
    intros _.
    apply (@bounded_bind _ _ _ _ 3 1 1 3 1 1); [apply bounded_auto_click_defaults |].
    intros _.
    apply (@bounded_bind _ _ _ _ 3 1 1 0 0 0); [apply bounded_auto_click_defaults |].
    intros _. apply bounded_ret.
Qed.

(** ** The workflow *)

Lemma auto_click_defaults_absent (E : env) (path : string) (st : state) :
  (forall i, (i < 3)%nat ->
     misses E (files st) path find_button_threshold (shots st + i)) ->
  exists st',
    auto_click_defaults E path st = (Ret false, st') /\ advanced st st' 3 3.
Proof.
  intros Hmiss. unfold auto_click_defaults, auto_click, bind.
  destruct (@find_button_exhausted E path auto_click_max_attempts
              (given (kw_interval no_kwargs) find_button_interval)
              (given (kw_threshold no_kwargs) find_button_threshold) st)
    as (st' & Hrun & Hadv).
  { reflexivity. }
  { exact Hmiss. }
  rewrite Hrun. exists st'. split; [reflexivity | exact Hadv].
Qed.

Lemma job_flow_stops_without_job_aux (E : env) (job_number : Z) (st : state) :
  (forall i, (i < 3)%nat ->
     misses E (files st) (select_job_path job_number) find_button_threshold
       (shots st + i)) ->
  exists st',
    job_flow E job_number st = (Ret tt, st') /\ advanced st st' 3 3.
Proof.
  intros Hmiss. unfold job_flow, bind.
  destruct (@auto_click_defaults_absent E (select_job_path job_number) st
              Hmiss) as (st' & Hrun & Hadv).
  rewrite Hrun. exists st'. split; [reflexivity | exact Hadv].
Qed.

(** X17.  [job_flow] is gated by its first button.  When the three
    captures that the search for the job button makes do not show it,
    [job_flow] returns at once: no search for any other button, three
    captures in all, and the pointer neither moved nor clicked. *)
Theorem job_flow_stops_without_job (E : env) (job_number : Z) (st : state) :
  (forall i, (i < 3)%nat ->
     misses E (files st) (select_job_path job_number) find_button_threshold
       (shots st + i)) ->
  exists st',
    job_flow E job_number st = (Ret tt, st') /\ advanced st st' 3 3.
Proof. apply job_flow_stops_without_job_aux. Qed.

Lemma job_flow_stops_without_job_witness :
  exists st',
    job_flow Scene.calm 1 Scene.start = (Ret tt, st') /\
    advanced Scene.start st' 3 3.
Proof.
  apply (@job_flow_stops_without_job Scene.calm 1 Scene.start).
  intros i _. exists (mk_ndarray 4 6 (Some 3%nat)
                        (fun y x c => sample Scene.desk y x (2 - c)%nat)).
  split; [reflexivity |].
  apply unloadable_located. exact I.
Defined.

(** X18.  [main_workflow] runs to its end whatever the display, the files
    and the pointer do: no [Exception] comes out of it, only an interrupt
    can stop it.  It leaves the files alone and makes at most 132
    captures, 44 moves and 44 clicks. *)
Theorem main_workflow_bounded (E : env) : bounded 132 44 44 (main_workflow E).
Proof.
  eapply bounded_weaken.
  - unfold main_workflow.
    repeat (eapply bounded_bind;
      [ first
          [ apply bounded_auto_click_defaults
          | apply bounded_job_flow
          | apply bounded_sleep; reflexivity
          | apply bounded_if;
              [ eapply bounded_bind;
                  [ apply bounded_auto_click_defaults
                  | intros ?; apply bounded_ret ]
              | eapply bounded_weaken; [ apply bounded_ret | lia .. ] ] ]
      | intros ? ]).
    apply bounded_ret.
  - lia.
  - lia.
  - lia.
Qed.

Section Idle.

Variable E : env.

Lemma quiet_advanced (st st' : state) (a b : nat) :
  quiet E st -> advanced st st' a b -> quiet E st'.
Proof.
  intros Hq (Hf & _) path n. rewrite Hf. apply Hq.
Qed.

Lemma idle_ret {A} (v : A) : idle E 0 v (ret v).
Proof. intros st _. exists st. split; [reflexivity | apply advanced_refl]. Qed.

Lemma idle_bind {A B} (m : M A) (k : A -> M B) (n n' : nat) (v : A) (w : B) :
  idle E n v m -> idle E n' w (k v) -> idle E (n + n') w (bind m k).
Proof.
  intros Hm Hk st Hq. unfold bind.
  destruct (Hm st Hq) as (st1 & Hrun & Hadv). rewrite Hrun.
  destruct (Hk st1 (quiet_advanced Hq Hadv)) as (st2 & Hrun2 & Hadv2).
  exists st2. split; [exact Hrun2 | apply (advanced_trans Hadv Hadv2)].
Qed.

Lemma idle_sleep (secs : Q) :
  sleepable E secs -> idle E 0 tt (time_sleep E secs).
Proof.
  intros H st _. rewrite time_sleep_ok by assumption.
  eexists. split; [reflexivity |].
  unfold advanced; simpl. repeat split; lia.
Qed.

Lemma idle_auto_click_defaults (path : string) :
  idle E 3 false (auto_click_defaults E path).
Proof.
  intros st Hq. apply auto_click_defaults_absent.
  intros i _. apply Hq.
Qed.

Lemma idle_job_flow (job_number : Z) : idle E 3 tt (job_flow E job_number).
Proof.
  intros st Hq. apply job_flow_stops_without_job_aux.
  intros i _. apply Hq.
Qed.

End Idle.

Lemma idle_eq {A} (E : env) (n n' : nat) (v : A) (m : M A) :
  idle E n v m -> n = n' -> idle E n' v m.
Proof. intros H <-. exact H. Qed.

(** X19.  On a display where no capture fails and no capture shows any
    of the templates, [main_workflow] goes through all its steps, the
    alternative work button included and the two job flows cut short,
    and returns after exactly 114 captures and matches without having
    moved or clicked the pointer. *)
Theorem main_workflow_idle (E : env) (st : state) :
  quiet E st ->
  exists st',
    main_workflow E st = (Ret tt, st') /\ advanced st st' 114 114.
Proof.
  revert st. change (idle E 114 tt (main_workflow E)).
  eapply idle_eq.
  - unfold main_workflow.
    repeat (eapply idle_bind;
      [ first
          [ apply idle_auto_click_defaults
          | apply idle_job_flow
          | apply idle_sleep; reflexivity
          | eapply idle_bind;
              [ apply idle_auto_click_defaults | apply idle_ret ] ]
      | cbv beta; cbn [negb] ]).
    apply idle_ret.
  - reflexivity.
Qed.

Lemma main_workflow_idle_witness :
  exists st',
    main_workflow Scene.bare Stage.bare_disk = (Ret tt, st') /\
    advanced Stage.bare_disk st' 114 114.
Proof.
  apply (@main_workflow_idle Scene.bare Stage.bare_disk).
  intros path n.
  exists (mk_ndarray 4 6 (Some 3%nat)
            (fun y x c => sample (Scene.solid 4 6 0) y x (2 - c)%nat)).
  split; [reflexivity |].
  apply unloadable_located. exact I.
Defined.

(** ** Threshold and screen *)

(** X20.  Lowering the threshold never loses a match nor moves it: a
    position that [find_template] returns at one threshold is returned,
    the same, at every lower threshold. *)
Theorem find_template_lower_threshold (E : env) (screenshot : ndarray)
    (path : string) (threshold lower : Q) (st : state) (position : point) :
  lower <= threshold ->
  fst (find_template E screenshot path threshold st) = Ret (Some position) ->
  fst (find_template E screenshot path lower st) = Ret (Some position).
Proof.
  intros Hle. rewrite !find_template_run. cbn [fst].
  intros [= Hloc]. f_equal.
  apply located_Some_inv in Hloc.
  destruct Hloc as (t & g & r & Hf & He & Hg & Hr & Hlt & ->).
  rewrite (located_scored E (files st) screenshot path lower Hf He Hg Hr).
  apply Qltb_ge in Hlt.
  replace (Qltb (best_score r) lower) with false; [reflexivity |].
  symmetry. apply Qltb_ge. apply (Qle_trans _ _ _ Hle Hlt).
Qed.

Lemma find_template_lower_threshold_witness :
  fst (find_template Scene.calm Scene.desk "button.png" 0.7 Scene.start)
    = Ret (Some (4, 2)%Z) /\
  fst (find_template Scene.calm Scene.desk "button.png" 0.6 Scene.start)
    = Ret (Some (4, 2)%Z).
Proof.
  split; [vm_compute; reflexivity |].
  apply (@find_template_lower_threshold Scene.calm Scene.desk "button.png"
           0.7 0.6 Scene.start (4, 2)%Z).
  - vm_compute. discriminate.
  - vm_compute. reflexivity.
Defined.

Lemma located_within (E : env) (fs : string -> option gray)
    (screenshot : ndarray) (path : string) (threshold : Q) (t : gray)
    (x y : Z) :
  located E fs screenshot path threshold = Some (x, y) ->
  fs path = Some t ->
  (rows t <= height screenshot)%nat -> (cols t <= width screenshot)%nat ->
  (0 <= x < Z.of_nat (width screenshot))%Z /\
  (0 <= y < Z.of_nat (height screenshot))%Z.
Proof.
  intros Hloc Hf Hrows Hcols.
  apply located_Some_inv in Hloc.
  destruct Hloc as (t' & g & r & Hf' & He & Hg & Hr & _ & Hp).
  rewrite Hf in Hf'. injection Hf' as <-.
  unfold cvtColor_BGR2GRAY in Hg.
  destruct (color_input screenshot); [| discriminate].
  injection Hg as <-.
  unfold matchTemplate, needswap in Hr. cbn [rows cols] in Hr.
  replace (height screenshot <? rows t)%nat with false in Hr
    by (symmetry; apply Nat.ltb_ge; exact Hrows).
  replace (width screenshot <? cols t)%nat with false in Hr
    by (symmetry; apply Nat.ltb_ge; exact Hcols).
  cbn [orb] in Hr. injection Hr as <-.
  unfold gray_empty in He. apply orb_false_iff in He.
  destruct He as (He1 & He2).
  apply Nat.eqb_neq in He1, He2.
  match type of Hp with
  | _ = center (best_loc ?r) _ =>
      destruct (minMaxLoc_greatest r) as (_ & Hx & Hy & _);
        [simpl; lia | simpl; lia |];
        destruct (best_loc r) as [bx by_]
  end.
  cbn [r_cols r_rows fst snd] in Hx, Hy.
  unfold center in Hp. cbn [fst snd] in Hp. injection Hp as -> ->.
  assert (Hw : (0 <= Z.of_nat (cols t) / 2 < Z.of_nat (cols t))%Z).
  { split; [apply Z.div_pos; lia | apply Z.div_lt_upper_bound; lia]. }
  assert (Hh : (0 <= Z.of_nat (rows t) / 2 < Z.of_nat (rows t))%Z).
  { split; [apply Z.div_pos; lia | apply Z.div_lt_upper_bound; lia]. }
  lia.
Qed.

(** X21.  On a display whose captures all have the size [W] by [H], a
    position that [find_button] returns for a template no larger than that
    lies on the screen; it is the position [auto_click] sends the pointer
    to. *)
Theorem find_button_within_screen (E : env) (path : string)
    (max_attempts : Z) (interval threshold : Q) (st st' : state) (t : gray)
    (W H : nat) (x y : Z) :
  (forall n s, shot E n = Ret s -> width s = W /\ height s = H) ->
  files st path = Some t ->
  (rows t <= H)%nat -> (cols t <= W)%nat ->
  find_button E path max_attempts interval threshold st
    = (Ret (Some (x, y)), st') ->
  (0 <= x < Z.of_nat W)%Z /\ (0 <= y < Z.of_nat H)%Z.
Proof.
  intros Hsize Hf Hrows Hcols Hrun.
  apply find_button_hit_inv in Hrun.
  destruct Hrun as (k & _ & (s & Hs & Hloc) & _).
  destruct (Hsize _ _ Hs) as (<- & <-).
  apply (@located_within E (files st) s path threshold t x y Hloc Hf Hrows
           Hcols).
Qed.

Lemma find_button_within_screen_witness :
  fst (find_button Scene.late "button.png" 3 0 0.7 Scene.start)
    = Ret (Some (4, 2)%Z) /\
  (0 <= 4 < Z.of_nat 6)%Z /\ (0 <= 2 < Z.of_nat 4)%Z.
Proof.
  split; [vm_compute; reflexivity |].
  apply (@find_button_within_screen Scene.late "button.png" 3 0 0.7
           Scene.start
           (snd (find_button Scene.late "button.png" 3 0 0.7 Scene.start))
           Scene.button 6 4 4 2).
  - intros n s. unfold shot. simpl.
    destruct (n =? 0)%nat; simpl; intros [= <-]; split; reflexivity.
  - reflexivity.
  - simpl. lia.
  - simpl. lia.
  - vm_compute. reflexivity.
Defined.
